(** * The LLM council deliberation pipeline

    A shallow embedding of the backend of the council application
    (backend/openrouter.py, backend/agents, backend/judges,
    backend/safety, backend/audit and backend/main.py) and the
    properties of its specification that were checked against it.

    Conventions of the embedding.
    - Python [str] is [string]; for ASCII text one [ascii] is one
      character, and a character beyond ASCII is its UTF-8 bytes.  The
      character classes of [re] and [str.strip] are given for ASCII text.
    - Python [float] is [pyfloat]: a rational for a finite value, or one of
      the three non-finite values.  Comparisons and [round] are exact.
    - A Python [dict] is an association list in insertion order with unique
      keys ([dict_set] keeps the position of a key that is assigned again).
    - A raised exception is the [Raise] case of [result]; [try]/[except] is
      a match on it.
    - The upstream model service, the clock and [uuid.uuid4] are inputs: a
      [World] fixes what each of them answers during one request. *)

From Stdlib Require Import List String Ascii Bool Arith ZArith QArith Lia.
From Stdlib Require Import Permutation DecimalNat DecimalString.
Import ListNotations.
Local Open Scope string_scope.
Local Open Scope Z_scope.
Set Warnings "-register-all".

(* ===================================================================== *)
(** ** Python values, exceptions and built-ins *)
(* ===================================================================== *)

Module Py.

(** Exceptions that the modelled code raises.  [ValidationError] is
    pydantic's (a subclass of [ValueError]); [JSONDecodeError] is caught
    inside [query_model_json] and never leaves it; [HTTPException] is
    FastAPI's, a plain subclass of [Exception]. *)
Inductive exn : Type :=
| IndexError
| TypeError
| AttributeError
| ValidationError
| IntegrityError
| HTTPException (status_code : Z) (detail : string).

Definition is_ValueError (e : exn) : bool :=
  match e with
  | ValidationError => true
  | _ => false
  end.

Inductive result (A : Type) : Type :=
| Ok (a : A)
| Raise (e : exn).
Arguments Ok {A} a.
Arguments Raise {A} e.

Definition bind {A B : Type} (m : result A) (k : A -> result B) : result B :=
  match m with
  | Ok a => k a
  | Raise e => Raise e
  end.

Fixpoint mapM {A B : Type} (f : A -> result B) (l : list A) : result (list B) :=
  match l with
  | [] => Ok []
  | x :: l' =>
      bind (f x) (fun y => bind (mapM f l') (fun ys => Ok (y :: ys)))
  end.

(** Python floats. *)
Inductive pyfloat : Type :=
| Fin (q : Q)
| Inf (negative : bool)
| NaN.

(** The values that [json.loads] builds and that the code passes around as
    untyped results of a model call. *)
Inductive pyval : Type :=
| PNone
| PBool (b : bool)
| PInt (n : Z)
| PFloat (f : pyfloat)
| PStr (s : string)
| PList (l : list pyval)
| PDict (d : list (string * pyval)).

Definition dict (V : Type) : Type := list (string * V).

Fixpoint dict_get {V : Type} (k : string) (d : dict V) : option V :=
  match d with
  | [] => None
  | (k', v) :: d' => if String.eqb k k' then Some v else dict_get k d'
  end.

Definition dict_mem {V : Type} (k : string) (d : dict V) : bool :=
  match dict_get k d with
  | Some _ => true
  | None => false
  end.

(** [d[k] = v]: a key that is already present keeps its place. *)
Fixpoint dict_set {V : Type} (k : string) (v : V) (d : dict V) : dict V :=
  match d with
  | [] => [(k, v)]
  | (k', v') :: d' =>
      if String.eqb k k' then (k, v) :: d' else (k', v') :: dict_set k v d'
  end.

Definition dict_keys {V : Type} (d : dict V) : list string := map fst d.

(** [{k: v for k, v in pairs}] *)
Definition dict_of_pairs {V : Type} (pairs : list (string * V)) : dict V :=
  fold_left (fun d kv => dict_set (fst kv) (snd kv) d) pairs [].

(** [d.get(k, default)] on a dict of values. *)
Definition get_default (k : string) (default : pyval) (d : dict pyval) : pyval :=
  match dict_get k d with
  | Some v => v
  | None => default
  end.

(** Truth value of an object, as [if x:] tests it. *)
Definition truthy (v : pyval) : bool :=
  match v with
  | PNone => false
  | PBool b => b
  | PInt n => negb (n =? 0)
  | PFloat (Fin q) => negb (Qeq_bool q 0)
  | PFloat _ => true
  | PStr s => negb (String.eqb s EmptyString)
  | PList l => match l with [] => false | _ => true end
  | PDict d => match d with [] => false | _ => true end
  end.

(** [str(n)] for a non-negative integer, as an f-string prints it. *)
Definition str_of_nat (n : nat) : string :=
  NilEmpty.string_of_uint (Nat.to_uint n).

(** [s[:n]] *)
Definition take (n : nat) (s : string) : string := substring 0 n s.

(** Characters that [str.isspace] accepts, in the ASCII range. *)
Definition isspace (c : ascii) : bool :=
  let n := nat_of_ascii c in
  ((9 <=? n) && (n <=? 13) || (28 <=? n) && (n <=? 32))%nat.

Fixpoint lstrip (s : string) : string :=
  match s with
  | String c s' => if isspace c then lstrip s' else s
  | EmptyString => EmptyString
  end.

(** [rstrip] keeps a character when it is not a space or when something
    is kept after it. *)
Fixpoint rstrip (s : string) : string :=
  match s with
  | EmptyString => EmptyString
  | String c s' =>
      match rstrip s' with
      | EmptyString => if isspace c then EmptyString else String c EmptyString
      | r => String c r
      end
  end.

Definition strip (s : string) : string := rstrip (lstrip s).

(** [round(x, ndigits)] with ties going to the even neighbour. *)
Definition round_half_even (q : Q) : Z :=
  let a := Qnum q in
  let b := Z.pos (Qden q) in
  let n := a / b in
  let r := a mod b in
  match 2 * r ?= b with
  | Lt => n
  | Gt => n + 1
  | Eq => if Z.even n then n else n + 1
  end.

Definition round (q : Q) (ndigits : nat) : Q :=
  let scale := Z.pow 10 (Z.of_nat ndigits) in
  Qred (Qmake (round_half_even (q * inject_Z scale)) (Z.to_pos scale)).

(** [x < y] on finite floats. *)
Definition Qlt_bool (x y : Q) : bool := negb (Qle_bool y x).

(** The name [type(x)] prints. *)
Definition type_name (v : pyval) : string :=
  match v with
  | PNone => "<class 'NoneType'>"
  | PBool _ => "<class 'bool'>"
  | PInt _ => "<class 'int'>"
  | PFloat _ => "<class 'float'>"
  | PStr _ => "<class 'str'>"
  | PList _ => "<class 'list'>"
  | PDict _ => "<class 'dict'>"
  end.

End Py.
Export Py.

Declare Scope py_scope.
Notation "x <- m ;; k" := (Py.bind m (fun x => k))
  (at level 61, m at next level, right associativity) : py_scope.
Local Open Scope py_scope.

(* ===================================================================== *)
(** ** The regular expressions the code searches with *)
(* ===================================================================== *)

Module Re.

(** [\w] for ASCII text. *)
Definition is_word (c : ascii) : bool :=
  let n := nat_of_ascii c in
  ((48 <=? n) && (n <=? 57) || (65 <=? n) && (n <=? 90)
   || (97 <=? n) && (n <=? 122) || (n =? 95))%nat.

Definition lower (c : ascii) : ascii :=
  let n := nat_of_ascii c in
  if ((65 <=? n) && (n <=? 90))%nat then ascii_of_nat (n + 32) else c.

(** [\b] between the character before a position and the one after it. *)
Definition boundary (before after : option ascii) : bool :=
  let w o := match o with Some c => is_word c | None => false end in
  xorb (w before) (w after).

(** Matches the literal [p] at the head of [s] without regard to case;
    returns the last character matched and the text after the match. *)
Fixpoint literal_ci (p s : string) (last : option ascii)
  : option (option ascii * string) :=
  match p with
  | EmptyString => Some (last, s)
  | String a p' =>
      match s with
      | String c s' =>
          if Ascii.eqb (lower a) (lower c) then literal_ci p' s' (Some c)
          else None
      | EmptyString => None
      end
  end.

Definition head (s : string) : option ascii :=
  match s with
  | String c _ => Some c
  | EmptyString => None
  end.

(** [\b(a1|a2|...)\b] matched at one position, [before] being the
    character in front of it. *)
Definition word_alt_here (alts : list string) (before : option ascii)
    (s : string) : bool :=
  boundary before (head s)
  && existsb (fun a =>
                match literal_ci a s before with
                | Some (last, rest) => boundary last (head rest)
                | None => false
                end) alts.

Fixpoint word_alt_from (alts : list string) (before : option ascii)
    (s : string) : bool :=
  word_alt_here alts before s
  || match s with
     | String c s' => word_alt_from alts (Some c) s'
     | EmptyString => false
     end.

(** [re.search(r'\b(a1|a2|...)\b', s, re.IGNORECASE)] is not [None]. *)
Definition search_word_alt (alts : list string) (s : string) : bool :=
  word_alt_from alts None s.

(** [re.search(p, s)] for a pattern [p] without metacharacters. *)
Fixpoint search_literal (p s : string) : bool :=
  prefix p s
  || match s with
     | String _ s' => search_literal p s'
     | EmptyString => false
     end.

Definition lbrace : ascii := "{"%char.
Definition rbrace : ascii := "}"%char.

(** The pattern of the brace scan in [query_model_json]: an opening brace,
    characters other than braces, any number of groups made of one pair of
    braces around characters other than braces and followed by characters
    other than braces, and a closing brace.

    [object_body] matches it at the head of a text, after the opening
    brace, and returns the number of characters up to and including the
    closing brace.  [inner] is true inside a pair of braces of a group.  A
    brace that the pattern cannot take ends the attempt: giving back
    characters of a run of non-braces does not help, because the character
    after the shorter run is not a brace. *)
Fixpoint object_body (inner : bool) (s : string) : option nat :=
  match s with
  | EmptyString => None
  | String c s' =>
      if Ascii.eqb c rbrace then
        if inner then option_map S (object_body false s') else Some 1%nat
      else if Ascii.eqb c lbrace then
        if inner then None else option_map S (object_body true s')
      else option_map S (object_body inner s')
  end.

(** [re.search] of that pattern with [re.DOTALL]: [group(0)] of the
    leftmost match. *)
Fixpoint search_object (s : string) : option string :=
  match s with
  | EmptyString => None
  | String c s' =>
      if Ascii.eqb c lbrace then
        match object_body false s' with
        | Some n => Some (substring 0 (S n) s)
        | None => search_object s'
        end
      else search_object s'
  end.

End Re.

(* ===================================================================== *)
(** ** [json.loads] *)
(* ===================================================================== *)

(** The decoder of Python's standard library for a text: the JSON grammar
    with the decoder's extensions ([NaN], [Infinity], [-Infinity]) and its
    strict handling of control characters inside strings.  [None] stands
    for [json.JSONDecodeError].  A finite number with a fraction or an
    exponent is its exact rational value; a character that an escape names
    beyond the ASCII range is written as its UTF-8 bytes. *)

Module Json.

Inductive token : Type :=
| TLBrace | TRBrace | TLBracket | TRBracket | TColon | TComma
| TValue (v : pyval).

(** A piece of a string literal: a character written as it is, or the code
    point of a [\uXXXX] escape. *)
Inductive piece : Type :=
| Raw (c : ascii)
| Escaped (n : N).

Inductive lex_state : Type :=
| Idle
| InWord (acc : list ascii)
| InString (acc : list piece)
| InEscape (acc : list piece)
| InUnicode (acc : list piece) (digits : nat) (n : N).

Definition is_ws (c : ascii) : bool :=
  let n := nat_of_ascii c in
  ((n =? 32) || (n =? 9) || (n =? 10) || (n =? 13))%nat.

Definition is_digit (c : ascii) : bool :=
  let n := nat_of_ascii c in ((48 <=? n) && (n <=? 57))%nat.

Definition is_alpha (c : ascii) : bool :=
  let n := nat_of_ascii c in
  ((65 <=? n) && (n <=? 90) || (97 <=? n) && (n <=? 122))%nat.

(** Characters of a number or of a literal name.  After a number or a name
    the grammar wants white space, a delimiter or the end of the text, so a
    maximal run of these characters is one value or an error. *)
Definition is_word_char (c : ascii) : bool :=
  is_digit c || is_alpha c
  || Ascii.eqb c "+"%char || Ascii.eqb c "-"%char || Ascii.eqb c "."%char.

Definition punct (c : ascii) : option token :=
  if Ascii.eqb c "{"%char then Some TLBrace
  else if Ascii.eqb c "}"%char then Some TRBrace
  else if Ascii.eqb c "["%char then Some TLBracket
  else if Ascii.eqb c "]"%char then Some TRBracket
  else if Ascii.eqb c ":"%char then Some TColon
  else if Ascii.eqb c ","%char then Some TComma
  else None.

Definition quote : ascii := "034"%char.
Definition backslash : ascii := "092"%char.

Definition hex_digit (c : ascii) : option N :=
  let n := N_of_ascii c in
  (if (48 <=? n) && (n <=? 57) then Some (n - 48)
   else if (65 <=? n) && (n <=? 70) then Some (n - 55)
   else if (97 <=? n) && (n <=? 102) then Some (n - 87)
   else None)%N.

Definition simple_escape (c : ascii) : option ascii :=
  if Ascii.eqb c quote then Some quote
  else if Ascii.eqb c backslash then Some backslash
  else if Ascii.eqb c "/"%char then Some "/"%char
  else if Ascii.eqb c "b"%char then Some "008"%char
  else if Ascii.eqb c "f"%char then Some "012"%char
  else if Ascii.eqb c "n"%char then Some "010"%char
  else if Ascii.eqb c "r"%char then Some "013"%char
  else if Ascii.eqb c "t"%char then Some "009"%char
  else None.

(** UTF-8 bytes of a code point. *)
Definition utf8 (n : N) : list ascii :=
  let byte x := ascii_of_N x in
  (if n <? 128 then [byte n]
   else if n <? 2048 then [byte (192 + n / 64); byte (128 + n mod 64)]
   else if n <? 65536 then
     [byte (224 + n / 4096); byte (128 + (n / 64) mod 64); byte (128 + n mod 64)]
   else
     [byte (240 + n / 262144); byte (128 + (n / 4096) mod 64);
      byte (128 + (n / 64) mod 64); byte (128 + n mod 64)])%N.

(** The text of a string literal from its pieces; an escaped high surrogate
    directly followed by an escaped low surrogate is one code point. *)
Fixpoint decode_pieces (l : list piece) : list ascii :=
  match l with
  | [] => []
  | Raw c :: l' => c :: decode_pieces l'
  | Escaped hi :: l' =>
      match l' with
      | Escaped lo :: l'' =>
          if ((55296 <=? hi) && (hi <=? 56319)
              && (56320 <=? lo) && (lo <=? 57343))%N
          then utf8 (65536 + (hi - 55296) * 1024 + (lo - 56320))%N
                 ++ decode_pieces l''
          else utf8 hi ++ decode_pieces l'
      | _ => utf8 hi ++ decode_pieces l'
      end
  end.

Fixpoint span_digits (s : list ascii) : list ascii * list ascii :=
  match s with
  | c :: s' =>
      if is_digit c then let (d, r) := span_digits s' in (c :: d, r)
      else ([], s)
  | [] => ([], [])
  end.

Definition Z_of_digits (d : list ascii) : Z :=
  fold_left (fun acc c => 10 * acc + (Z.of_nat (nat_of_ascii c) - 48)) d 0.

(** The integer part of a number: [0], or digits that do not start with
    [0]. *)
Definition int_part_ok (d : list ascii) : bool :=
  match d with
  | [] => false
  | c :: d' => negb (Ascii.eqb c "0"%char) || match d' with [] => true | _ => false end
  end.

(** [m * 10^e] *)
Definition decimal (m e : Z) : Q :=
  if 0 <=? e then Qred (inject_Z (m * 10 ^ e))
  else Qred (Qmake m (Z.to_pos (10 ^ (- e)))).

(** The exponent part: [e] or [E], an optional sign and digits, up to the
    end of the word. *)
Definition exponent (s : list ascii) : option Z :=
  match s with
  | [] => Some 0
  | c :: s1 =>
      if Ascii.eqb c "e"%char || Ascii.eqb c "E"%char then
        let (neg, s2) :=
          match s1 with
          | sg :: s2 =>
              if Ascii.eqb sg "-"%char then (true, s2)
              else if Ascii.eqb sg "+"%char then (false, s2)
              else (false, s1)
          | [] => (false, s1)
          end in
        match span_digits s2 with
        | ((_ :: _) as d, []) => Some (if neg then - Z_of_digits d else Z_of_digits d)
        | _ => None
        end
      else None
  end.

Definition number (w : list ascii) : option pyval :=
  let (neg, s1) :=
    match w with
    | c :: s1 => if Ascii.eqb c "-"%char then (true, s1) else (false, w)
    | [] => (false, w)
    end in
  let sign (z : Z) := if neg then - z else z in
  let (ip, s2) := span_digits s1 in
  if int_part_ok ip then
    match s2 with
    | [] => Some (PInt (sign (Z_of_digits ip)))
    | c :: s3 =>
        if Ascii.eqb c "."%char then
          match span_digits s3 with
          | ((_ :: _) as fp, s4) =>
              match exponent s4 with
              | Some e =>
                  Some (PFloat (Fin (decimal (sign (Z_of_digits (ip ++ fp)))
                                             (e - Z.of_nat (List.length fp)))))
              | None => None
              end
          | _ => None
          end
        else
          match exponent s2 with
          | Some e => Some (PFloat (Fin (decimal (sign (Z_of_digits ip)) e)))
          | None => None
          end
    end
  else None.

(** The value of a maximal run of word characters. *)
Definition word (w : list ascii) : option pyval :=
  let s := string_of_list_ascii w in
  if String.eqb s "null" then Some PNone
  else if String.eqb s "true" then Some (PBool true)
  else if String.eqb s "false" then Some (PBool false)
  else if String.eqb s "NaN" then Some (PFloat NaN)
  else if String.eqb s "Infinity" then Some (PFloat (Inf false))
  else if String.eqb s "-Infinity" then Some (PFloat (Inf true))
  else number w.

(** One character outside a string and outside a word. *)
Definition lex_idle (c : ascii) (out : list token)
  : option (lex_state * list token) :=
  if is_ws c then Some (Idle, out)
  else if Ascii.eqb c quote then Some (InString [], out)
  else if is_word_char c then Some (InWord [c], out)
  else match punct c with
       | Some t => Some (Idle, t :: out)
       | None => None
       end.

Definition lex_step (st : lex_state) (out : list token) (c : ascii)
  : option (lex_state * list token) :=
  match st with
  | Idle => lex_idle c out
  | InWord acc =>
      if is_word_char c then Some (InWord (c :: acc), out)
      else match word (rev acc) with
           | Some v => lex_idle c (TValue v :: out)
           | None => None
           end
  | InString acc =>
      if Ascii.eqb c quote then
        Some (Idle,
              TValue (PStr (string_of_list_ascii (decode_pieces (rev acc)))) :: out)
      else if Ascii.eqb c backslash then Some (InEscape acc, out)
      else if (nat_of_ascii c <? 32)%nat then None
      else Some (InString (Raw c :: acc), out)
  | InEscape acc =>
      if Ascii.eqb c "u"%char then Some (InUnicode acc 0 0%N, out)
      else match simple_escape c with
           | Some e => Some (InString (Raw e :: acc), out)
           | None => None
           end
  | InUnicode acc k n =>
      match hex_digit c with
      | Some d =>
          let n' := (16 * n + d)%N in
          if (k =? 3)%nat then Some (InString (Escaped n' :: acc), out)
          else Some (InUnicode acc (S k) n', out)
      | None => None
      end
  end.

Fixpoint lex (s : string) (st : lex_state) (out : list token)
  : option (list token) :=
  match s with
  | String c s' =>
      match lex_step st out c with
      | Some (st', out') => lex s' st' out'
      | None => None
      end
  | EmptyString =>
      match st with
      | Idle => Some (rev out)
      | InWord acc =>
          match word (rev acc) with
          | Some v => Some (rev (TValue v :: out))
          | None => None
          end
      | _ => None
      end
  end.

(** A container that is being read: the elements of a list so far (last
    first), or the items of a dict so far and the key whose value is
    awaited. *)
Inductive frame : Type :=
| FList (acc : list pyval)
| FDict (acc : dict pyval) (key : option string).

Inductive expect : Type :=
| EValue          (* a value *)
| EValueOrClose   (* after an opening bracket: a value or the closing bracket *)
| EKeyOrClose     (* after an opening brace: a key or the closing brace *)
| EKey            (* after a comma in a dict: a key *)
| EColon          (* after a key *)
| ECommaOrClose   (* after a value in a container *)
| EDone (v : pyval).

(** A value is complete: it is the document, the next element of the list
    being read, or the value of the pending key ([dict_set]: the last of
    two equal keys wins). *)
Definition complete (v : pyval) (stack : list frame)
  : option (list frame * expect) :=
  match stack with
  | [] => Some ([], EDone v)
  | FList acc :: st => Some (FList (v :: acc) :: st, ECommaOrClose)
  | FDict acc (Some k) :: st => Some (FDict (dict_set k v acc) None :: st, ECommaOrClose)
  | FDict _ None :: _ => None
  end.

Definition open_or_scalar (t : token) (stack : list frame)
  : option (list frame * expect) :=
  match t with
  | TValue v => complete v stack
  | TLBracket => Some (FList [] :: stack, EValueOrClose)
  | TLBrace => Some (FDict [] None :: stack, EKeyOrClose)
  | _ => None
  end.

Definition set_key (t : token) (stack : list frame)
  : option (list frame * expect) :=
  match t, stack with
  | TValue (PStr k), FDict acc None :: st => Some (FDict acc (Some k) :: st, EColon)
  | _, _ => None
  end.

Definition parse_step (stack : list frame) (e : expect) (t : token)
  : option (list frame * expect) :=
  match e with
  | EValue => open_or_scalar t stack
  | EValueOrClose =>
      match t, stack with
      | TRBracket, FList [] :: st => complete (PList []) st
      | _, _ => open_or_scalar t stack
      end
  | EKeyOrClose =>
      match t, stack with
      | TRBrace, FDict acc None :: st => complete (PDict acc) st
      | _, _ => set_key t stack
      end
  | EKey => set_key t stack
  | EColon =>
      match t with
      | TColon => Some (stack, EValue)
      | _ => None
      end
  | ECommaOrClose =>
      match t, stack with
      | TComma, FList _ :: _ => Some (stack, EValue)
      | TRBracket, FList acc :: st => complete (PList (rev acc)) st
      | TComma, FDict _ None :: _ => Some (stack, EKey)
      | TRBrace, FDict acc None :: st => complete (PDict acc) st
      | _, _ => None
      end
  | EDone _ => None
  end.

Fixpoint parse (ts : list token) (stack : list frame) (e : expect)
  : option pyval :=
  match ts with
  | t :: ts' =>
      match parse_step stack e t with
      | Some (stack', e') => parse ts' stack' e'
      | None => None
      end
  | [] =>
      match e with
      | EDone v => Some v
      | _ => None
      end
  end.

Definition loads (s : string) : option pyval :=
  match lex s Idle [] with
  | Some ts => parse ts [] EValue
  | None => None
  end.

End Json.

(* ===================================================================== *)
(** ** backend/schemas/decision.py *)
(* ===================================================================== *)

(** The pydantic models, one module per class so that the fields keep
    their names.  A constructor of the code validates its arguments; the
    [validate_*] functions are that validation for the types that occur:
    a [str] field takes a string, a [float] field a number, a [List] a
    list and a [Dict] a dict.  (pydantic's lax coercions of booleans and
    numeric strings to [float] are left out.) *)

Definition timestamp : Type := Z.

Module Citation.
Record t : Type := Build {
  source : string;
  excerpt : string;
  confidence : Q
}.
End Citation.

Module Risk.
Record t : Type := Build {
  category : string;
  severity : string;
  description : string
}.
End Risk.

Module AgentResponse.
Record t : Type := Build {
  agent_id : string;
  model : string;
  response : string;
  timestamp : timestamp
}.
End AgentResponse.

Module JudgeEvaluation.

(** The rationale is text.  Two f-strings of the evaluator print a value
    with [str(...)]; they are kept as the value they print. *)
Inductive text : Type :=
| Text (s : string)
| FallbackText (output : pyval)
    (* f"Fallback ranking due to invalid JSON response: {str(output)[:100]}" *)
| ErrorText (e : exn).
    (* f"Error processing judge response: {str(e)}" *)

Record t : Type := Build {
  judge_id : string;
  model : string;
  rankings : list string;
  scores : dict (dict pyfloat);
  rationale : text
}.
End JudgeEvaluation.

Module DecisionObject.
Record t : Type := Build {
  question : string;
  final_answer : string;
  confidence : Q;
  agent_responses : list AgentResponse.t;
  judge_evaluations : list JudgeEvaluation.t;
  risks : list Risk.t;
  citations : list Citation.t;
  timestamp : timestamp;
  audit_id : string;
  processing_time_seconds : option Q
}.
End DecisionObject.

Module Schemas.

Definition validate_str (v : pyval) : result string :=
  match v with
  | PStr s => Ok s
  | _ => Raise ValidationError
  end.

Definition validate_float (v : pyval) : result pyfloat :=
  match v with
  | PInt n => Ok (Fin (inject_Z n))
  | PFloat f => Ok f
  | _ => Raise ValidationError
  end.

(** [float = Field(ge=0.0, le=1.0)] *)
Definition validate_unit_float (v : pyval) : result Q :=
  f <- validate_float v ;;
  match f with
  | Fin q => if Qle_bool 0 q && Qle_bool q 1 then Ok q else Raise ValidationError
  | _ => Raise ValidationError
  end.

(** [List[str]] *)
Definition validate_str_list (v : pyval) : result (list string) :=
  match v with
  | PList l => mapM validate_str l
  | _ => Raise ValidationError
  end.

Definition validate_items {V : Type} (f : pyval -> result V)
    (d : dict pyval) : result (dict V) :=
  mapM (fun kv => v <- f (snd kv) ;; Ok (fst kv, v)) d.

(** [Dict[str, float]] *)
Definition validate_float_dict (v : pyval) : result (dict pyfloat) :=
  match v with
  | PDict d => validate_items validate_float d
  | _ => Raise ValidationError
  end.

(** [Dict[str, Dict[str, float]]] *)
Definition validate_scores (v : pyval) : result (dict (dict pyfloat)) :=
  match v with
  | PDict d => validate_items validate_float_dict d
  | _ => Raise ValidationError
  end.

(** A required field of a model built from keyword arguments. *)
Definition required {V : Type} (f : pyval -> result V) (k : string)
    (kwargs : dict pyval) : result V :=
  match dict_get k kwargs with
  | Some v => f v
  | None => Raise ValidationError
  end.

(** [Risk] built from [r] unpacked as keyword arguments: [r] has to be a
    mapping; keys that are not fields are ignored. *)
Definition Risk_of (r : pyval) : result Risk.t :=
  match r with
  | PDict kwargs =>
      c <- required validate_str "category" kwargs ;;
      s <- required validate_str "severity" kwargs ;;
      d <- required validate_str "description" kwargs ;;
      Ok (Risk.Build c s d)
  | _ => Raise TypeError
  end.

(** [Citation] built from [c] unpacked as keyword arguments. *)
Definition Citation_of (c : pyval) : result Citation.t :=
  match c with
  | PDict kwargs =>
      s <- required validate_str "source" kwargs ;;
      e <- required validate_str "excerpt" kwargs ;;
      q <- required validate_unit_float "confidence" kwargs ;;
      Ok (Citation.Build s e q)
  | _ => Raise TypeError
  end.

(** [[f(x) for x in v]]: what iterating over [v] yields.  A string yields
    its characters and a dict its keys, both as strings; the other values
    are not iterable. *)
Definition iterate (v : pyval) : result (list pyval) :=
  match v with
  | PList l => Ok l
  | PStr s => Ok (map (fun c => PStr (String c EmptyString)) (list_ascii_of_string s))
  | PDict d => Ok (map PStr (dict_keys d))
  | _ => Raise TypeError
  end.

End Schemas.

(* ===================================================================== *)
(** ** backend/config.py *)
(* ===================================================================== *)

Record Config : Type := {
  GENERATOR_MODELS : list string;
  JUDGE_MODELS : list string;
  CHAIRMAN_MODEL : string
}.

(** The values taken when the environment sets none. *)
Definition default_config : Config := {|
  GENERATOR_MODELS :=
    ["meta-llama/llama-3.2-3b-instruct:free";
     "google/gemini-2.0-flash-exp:free";
     "mistralai/mistral-7b-instruct:free"];
  JUDGE_MODELS :=
    ["meta-llama/llama-3.2-3b-instruct:free";
     "google/gemini-2.0-flash-exp:free"];
  CHAIRMAN_MODEL := "google/gemini-2.0-flash-exp:free"
|}.

(* ===================================================================== *)
(** ** backend/openrouter.py *)
(* ===================================================================== *)

Module OpenRouter.

(** What one HTTP request to the service comes to: a body whose first
    choice carries the message [message], an error status, a timeout, or
    any other exception (a malformed body among them). *)
Inductive attempt : Type :=
| Reply (message : dict pyval)
| HTTPStatusError (status_code : Z)
| TimeoutException
| OtherException.

(** The service as one call sees it: the outcome of its n-th request. *)
Definition upstream : Type := nat -> attempt.

Record response : Type := {
  content : pyval;
  reasoning_details : pyval
}.

(** The loop of [query_model], with [remaining] iterations to go.  The
    second component lists the delays slept, in seconds. *)
Fixpoint query_model_loop (up : upstream) (max_retries remaining : nat)
  : option response * list Z :=
  match remaining with
  | O => (None, [])
  | S remaining' =>
      let attempt := (max_retries - remaining)%nat in
      let again (delay : Z) :=
        let (r, slept) := query_model_loop up max_retries remaining' in
        (r, delay :: slept) in
      let retry_or_give_up :=
        if (attempt <? max_retries - 1)%nat then again 1 else (None, []) in
      match up attempt with
      | Reply message =>
          (Some {| content := get_default "content" PNone message;
                   reasoning_details := get_default "reasoning_details" PNone message |},
           [])
      | HTTPStatusError status_code =>
          if (status_code =? 429) && (attempt <? max_retries - 1)%nat
          then again (2 ^ Z.of_nat attempt)
          else if status_code =? 402 then (None, [])
          else if status_code =? 404 then (None, [])
          else retry_or_give_up
      | TimeoutException => retry_or_give_up
      | OtherException => retry_or_give_up
      end
  end.

Definition query_model (up : upstream) (max_retries : nat) : option response :=
  fst (query_model_loop up max_retries max_retries).

(** One task per entry of [models], gathered, then
    [{model: response for model, response in zip(models, responses)}]. *)
Definition query_models_parallel (ups : nat -> upstream) (models : list string)
  : dict (option response) :=
  let responses :=
    map (fun i => query_model (ups i) 3) (seq 0 (List.length models)) in
  dict_of_pairs (combine models responses).

Definition default_ranking : pyval :=
  PList [PStr "agent_0"; PStr "agent_1"; PStr "agent_2"].

(** The dict returned when the call gave no response or no content. *)
Definition no_response_fallback (rationale : string) : pyval :=
  PDict [("rankings", default_ranking);
         ("scores", PDict []);
         ("rationale", PStr rationale);
         ("final_answer", PStr "Unable to generate synthesis due to API rate limits");
         ("confidence", PFloat (Fin (3 # 10)));
         ("risks", PList []);
         ("citations", PList []);
         ("fallback", PBool true)].

(** The dict returned when the content could not be used. *)
Definition unusable_fallback (rationale : string) : pyval :=
  PDict [("rankings", default_ranking);
         ("scores", PDict []);
         ("rationale", PStr rationale);
         ("fallback", PBool true)].

(** The pattern of the search for a markdown code block, as the source has
    it: six backquotes, and no group. *)
Definition code_block_pattern : string := "``````".

(** [m.group(k)] of a match of a pattern without capturing groups. *)
Definition group (whole : string) (k : nat) : result string :=
  match k with
  | O => Ok whole
  | S _ => Raise IndexError
  end.

(** The part of [query_model_json] that works on a string content. *)
Definition parse_content (content : string) : result pyval :=
  match Json.loads content with
  | Some v => Ok v
  | None =>
      block <-
        (if Re.search_literal code_block_pattern content then
           text <- group code_block_pattern 1 ;;
           Ok (Json.loads text)
         else Ok None) ;;
      match block with
      | Some v => Ok v
      | None =>
          let object :=
            match Re.search_object content with
            | Some whole => text <- group whole 0 ;; Ok (Json.loads text)
            | None => Ok None
            end in
          o <- object ;;
          match o with
          | Some v => Ok v
          | None =>
              Ok (unusable_fallback
                    ("Failed to parse JSON - text response: " ++ take 200 content))
          end
      end
  end.

Definition query_model_json (up : upstream) (max_retries : nat) : result pyval :=
  match query_model up max_retries with
  | None => Ok (no_response_fallback "API error - using default ranking")
  | Some response =>
      match content response with
      | PNone => Ok (no_response_fallback "Empty response - using default ranking")
      | PDict d => Ok (PDict d)
      | PStr s => parse_content s
      | other =>
          Ok (unusable_fallback
                ("Unexpected type " ++ type_name other ++ " - using default"))
      end
  end.

End OpenRouter.

(* ===================================================================== *)
(** ** What a request reads from outside the program *)
(* ===================================================================== *)

Record World : Type := {
  (** readings of the event loop's clock, in seconds: on entry of
      [deliberate], in stage 3, and after the audit write *)
  start_time : Q;
  synthesis_time : Q;
  end_time : Q;
  (** [datetime.utcnow()] for the i-th agent response and for the decision *)
  agent_utcnow : nat -> timestamp;
  decision_utcnow : timestamp;
  (** [str(uuid.uuid4())] *)
  uuid4 : string;
  (** the service as seen by the call for the i-th generator, by the call
      for the i-th judge and by the chairman's call *)
  generator_upstream : nat -> OpenRouter.upstream;
  judge_upstream : nat -> OpenRouter.upstream;
  chairman_upstream : OpenRouter.upstream
}.

(** [enumerate(l)] *)
Definition enumerate {A : Type} (l : list A) : list (nat * A) :=
  combine (seq 0 (List.length l)) l.

(** [f"agent_{i}"] *)
Definition agent_name (i : nat) : string := "agent_" ++ str_of_nat i.

(** [f"judge_{i}"] *)
Definition judge_name (i : nat) : string := "judge_" ++ str_of_nat i.

(* ===================================================================== *)
(** ** backend/agents/generator.py *)
(* ===================================================================== *)

Module Generator.

(** [responses] is the dict that [query_models_parallel] returns, and
    [zip(GENERATOR_MODELS, responses)] iterates over it: over its keys. *)
Definition stage1_generate_answers (cfg : Config) (w : World)
  : list AgentResponse.t :=
  let responses :=
    OpenRouter.query_models_parallel (generator_upstream w) (GENERATOR_MODELS cfg) in
  map (fun '(i, (model, response)) =>
         {| AgentResponse.agent_id := agent_name i;
            AgentResponse.model := model;
            AgentResponse.response := response;
            AgentResponse.timestamp := agent_utcnow w i |})
      (enumerate (combine (GENERATOR_MODELS cfg) (dict_keys responses))).

End Generator.

(* ===================================================================== *)
(** ** backend/judges/evaluator.py *)
(* ===================================================================== *)

Module Evaluator.

Definition criteria : list string :=
  ["factual_accuracy"; "completeness"; "clarity"; "safety"; "citation_quality"].

(** [[f"agent_{j}" for j in range(len(agent_responses))]] *)
Definition default_rankings (agent_responses : list AgentResponse.t) : list string :=
  map agent_name (seq 0 (List.length agent_responses)).

(** The score 5 for every criterion and every agent. *)
Definition neutral_scores (agent_responses : list AgentResponse.t)
  : dict (dict pyfloat) :=
  map (fun j => (agent_name j, map (fun c => (c, Fin 5)) criteria))
      (seq 0 (List.length agent_responses)).

(** The body of the [try] for one judge. *)
Definition evaluate (agent_responses : list AgentResponse.t)
    (i : nat) (model : string) (output : pyval) : result JudgeEvaluation.t :=
  let default :=
    {| JudgeEvaluation.judge_id := judge_name i;
       JudgeEvaluation.model := model;
       JudgeEvaluation.rankings := default_rankings agent_responses;
       JudgeEvaluation.scores := neutral_scores agent_responses;
       JudgeEvaluation.rationale := JudgeEvaluation.FallbackText output |} in
  match output with
  | PDict d =>
      match dict_get "rankings" d with
      | Some r =>
          rankings <- Schemas.validate_str_list r ;;
          scores <- Schemas.validate_scores (get_default "scores" (PDict []) d) ;;
          rationale <- Schemas.validate_str
                         (get_default "rationale" (PStr "No rationale provided") d) ;;
          Ok {| JudgeEvaluation.judge_id := judge_name i;
                JudgeEvaluation.model := model;
                JudgeEvaluation.rankings := rankings;
                JudgeEvaluation.scores := scores;
                JudgeEvaluation.rationale := JudgeEvaluation.Text rationale |}
      | None => Ok default
      end
  | _ => Ok default
  end.

(** One judge: the [try] and its [except Exception]. *)
Definition judge (agent_responses : list AgentResponse.t)
    (i : nat) (model : string) (output : pyval) : JudgeEvaluation.t :=
  match evaluate agent_responses i model output with
  | Ok e => e
  | Raise e =>
      {| JudgeEvaluation.judge_id := judge_name i;
         JudgeEvaluation.model := model;
         JudgeEvaluation.rankings := default_rankings agent_responses;
         JudgeEvaluation.scores := [];
         JudgeEvaluation.rationale := JudgeEvaluation.ErrorText e |}
  end.

(** The outputs of the judges' calls, gathered: an exception of one call
    is the exception of the gathering. *)
Definition judge_outputs (cfg : Config) (w : World) : result (list pyval) :=
  mapM (fun i => OpenRouter.query_model_json (judge_upstream w i) 3)
       (seq 0 (List.length (JUDGE_MODELS cfg))).

Definition stage2_judge_evaluation (cfg : Config) (w : World)
    (agent_responses : list AgentResponse.t) : result (list JudgeEvaluation.t) :=
  outputs <- judge_outputs cfg w ;;
  Ok (map (fun '(i, (model, output)) => judge agent_responses i model output)
          (enumerate (combine (JUDGE_MODELS cfg) outputs))).

End Evaluator.

(* ===================================================================== *)
(** ** backend/agents/synthesizer.py *)
(* ===================================================================== *)

Module Synthesizer.

(** [synthesis_data.get(...)]: only a dict has the method. *)
Definition as_dict (synthesis_data : pyval) : result (dict pyval) :=
  match synthesis_data with
  | PDict d => Ok d
  | _ => Raise AttributeError
  end.

Definition fallback_confidence : Q := 5 # 10.
Definition default_confidence : pyval := PFloat (Fin (5 # 10)).

Definition fallback_risk : Risk.t :=
  {| Risk.category := "api_error";
     Risk.severity := "medium";
     Risk.description := "Chairman synthesis failed, using fallback" |}.

(** [f"Based on the responses: {agent_responses[0].response[:200]}..."] *)
Definition fallback_answer (first : AgentResponse.t) : string :=
  "Based on the responses: " ++ take 200 (AgentResponse.response first) ++ "...".

Definition stage3_synthesize_decision (cfg : Config) (w : World)
    (question : string)
    (agent_responses : list AgentResponse.t)
    (judge_evaluations : list JudgeEvaluation.t)
    (start_time : Q) : result DecisionObject.t :=
  synthesis_data <- OpenRouter.query_model_json (chairman_upstream w) 3 ;;
  let processing_time := (synthesis_time w - start_time)%Q in
  d <- as_dict synthesis_data ;;
  if truthy (get_default "fallback" PNone d) then
    match agent_responses with
    | [] => Raise IndexError
    | first :: _ =>
        Ok {| DecisionObject.question := question;
              DecisionObject.final_answer := fallback_answer first;
              DecisionObject.confidence := fallback_confidence;
              DecisionObject.agent_responses := agent_responses;
              DecisionObject.judge_evaluations := judge_evaluations;
              DecisionObject.risks := [fallback_risk];
              DecisionObject.citations := [];
              DecisionObject.timestamp := decision_utcnow w;
              DecisionObject.audit_id := uuid4 w;
              DecisionObject.processing_time_seconds := Some (round processing_time 2) |}
    end
  else
    risk_items <- Schemas.iterate (get_default "risks" (PList []) d) ;;
    risks <- mapM Schemas.Risk_of risk_items ;;
    citation_items <- Schemas.iterate (get_default "citations" (PList []) d) ;;
    citations <- mapM Schemas.Citation_of citation_items ;;
    final_answer <- Schemas.validate_str
                      (get_default "final_answer" (PStr "No answer generated") d) ;;
    confidence <- Schemas.validate_unit_float
                      (get_default "confidence" default_confidence d) ;;
    Ok {| DecisionObject.question := question;
          DecisionObject.final_answer := final_answer;
          DecisionObject.confidence := confidence;
          DecisionObject.agent_responses := agent_responses;
          DecisionObject.judge_evaluations := judge_evaluations;
          DecisionObject.risks := risks;
          DecisionObject.citations := citations;
          DecisionObject.timestamp := decision_utcnow w;
          DecisionObject.audit_id := uuid4 w;
          DecisionObject.processing_time_seconds := Some (round processing_time 2) |}.

End Synthesizer.

(* ===================================================================== *)
(** ** backend/safety/gate.py *)
(* ===================================================================== *)

Module Gate.

(** The dicts appended to [violations]. *)
Inductive violation : Type :=
| UnsafePattern (type : string)
    (* {"type": type, "reason": f"Detected unsafe pattern: {type}"} *)
| HighRiskDetected (count : nat) (risks : list string).
    (* {"type": "high_risk_detected", "count": ..., "risks": [...]} *)

(** The dicts appended to [warnings]. *)
Inductive warning : Type :=
| LowConfidence (value threshold : Q)
    (* {"type": "low_confidence", "value": ..., "threshold": ..., "reason": ...} *)
| JudgeDisagreement (judge_0_top judge_1_top : string).
    (* {"type": "judge_disagreement", "reason": ..., "judge_0_top": ..., "judge_1_top": ...} *)

Record SafetyResult : Type := {
  passed : bool;
  violations : list violation;
  warnings : list warning;
  confidence : Q
}.

(** Each pattern is a word-bounded alternation, searched without regard to
    case. *)
Definition UNSAFE_PATTERNS : list (list string * string) :=
  [(["kill"; "murder"; "suicide"; "harm yourself"], "violence");
   (["illegal"; "hack"; "crack"; "pirate"], "illegal_activity");
   (["racist"; "sexist"; "discriminat"], "discrimination")].

Definition MIN_CONFIDENCE : Q := 5 # 10.

(** Check 1 *)
Definition pattern_violations (final_answer : string) : list violation :=
  flat_map (fun '(pattern, violation_type) =>
              if Re.search_word_alt pattern final_answer
              then [UnsafePattern violation_type] else [])
           UNSAFE_PATTERNS.

(** Check 2 *)
Definition confidence_warnings (confidence : Q) : list warning :=
  if Qlt_bool confidence MIN_CONFIDENCE
  then [LowConfidence confidence MIN_CONFIDENCE] else [].

(** Check 3 *)
Definition risk_violations (risks : list Risk.t) : list violation :=
  let high_risks :=
    filter (fun r => String.eqb (Risk.severity r) "high") risks in
  match high_risks with
  | [] => []
  | _ => [HighRiskDetected (List.length high_risks) (map Risk.description high_risks)]
  end.

(** [l[0]] *)
Definition first (l : list string) : result string :=
  match l with
  | x :: _ => Ok x
  | [] => Raise IndexError
  end.

(** Check 4 *)
Definition disagreement_warnings (judge_evaluations : list JudgeEvaluation.t)
  : result (list warning) :=
  match judge_evaluations with
  | e0 :: e1 :: _ =>
      let rank1 := JudgeEvaluation.rankings e0 in
      let rank2 := JudgeEvaluation.rankings e1 in
      top1 <- first rank1 ;;
      top2 <- first rank2 ;;
      if negb (String.eqb top1 top2)
      then Ok [JudgeDisagreement top1 top2] else Ok []
  | _ => Ok []
  end.

Definition safety_check (decision : DecisionObject.t) : result SafetyResult :=
  let violations1 := pattern_violations (DecisionObject.final_answer decision) in
  let warnings2 := confidence_warnings (DecisionObject.confidence decision) in
  let violations3 := risk_violations (DecisionObject.risks decision) in
  warnings4 <- disagreement_warnings (DecisionObject.judge_evaluations decision) ;;
  let violations := (violations1 ++ violations3)%list in
  let warnings := (warnings2 ++ warnings4)%list in
  Ok {| passed := (List.length violations =? 0)%nat;
        violations := violations;
        warnings := warnings;
        confidence := DecisionObject.confidence decision |}.

End Gate.

(* ===================================================================== *)
(** ** backend/audit/logger.py *)
(* ===================================================================== *)

Module AuditLogger.

(** A row of the table [audit_log], with the columns that
    [log_decision] fills.  The serialized columns hold the data they
    serialize. *)
Record row : Type := {
  audit_id : string;
  timestamp : timestamp;
  question : string;
  final_answer : string;
  confidence : Q;
  agent_responses : list AgentResponse.t;
  judge_evaluations : list JudgeEvaluation.t;
  risks : list Risk.t;
  citations : list Citation.t;
  safety_passed : bool;
  safety_violations : list Gate.violation;
  safety_warnings : list Gate.warning;
  processing_time_seconds : option Q
}.

(** The table, oldest row first. *)
Definition table : Type := list row.

Definition has_key (db : table) (id : string) : bool :=
  existsb (fun r => String.eqb (audit_id r) id) db.

(** [INSERT INTO audit_log ...] and [commit]: [audit_id] is the primary
    key, so a second row with a key of the table is refused. *)
Definition log_decision (db : table) (decision : DecisionObject.t)
    (safety_result : Gate.SafetyResult) : table * result string :=
  let r :=
    {| audit_id := DecisionObject.audit_id decision;
       timestamp := DecisionObject.timestamp decision;
       question := DecisionObject.question decision;
       final_answer := DecisionObject.final_answer decision;
       confidence := DecisionObject.confidence decision;
       agent_responses := DecisionObject.agent_responses decision;
       judge_evaluations := DecisionObject.judge_evaluations decision;
       risks := DecisionObject.risks decision;
       citations := DecisionObject.citations decision;
       safety_passed := Gate.passed safety_result;
       safety_violations := Gate.violations safety_result;
       safety_warnings := Gate.warnings safety_result;
       processing_time_seconds := DecisionObject.processing_time_seconds decision |} in
  if has_key db (DecisionObject.audit_id decision)
  then (db, Raise IntegrityError)
  else ((db ++ [r])%list, Ok (DecisionObject.audit_id decision)).

(** [SELECT * FROM audit_log WHERE audit_id = ?] *)
Definition get_decision (db : table) (id : string) : option row :=
  find (fun r => String.eqb (audit_id r) id) db.

Definition Qsum (l : list Q) : Q := fold_right Qplus 0%Q l.

(** [AVG(column)]: [NULL] over no value. *)
Definition AVG (l : list Q) : option Q :=
  match l with
  | [] => None
  | _ => Some (Qred (Qsum l / inject_Z (Z.of_nat (List.length l))))
  end.

(** [round(x, n) if x else 0.0] for an aggregate [x]. *)
Definition rounded_or_zero (x : option Q) (ndigits : nat) : pyval :=
  match x with
  | Some q => if Qeq_bool q 0 then PFloat (Fin 0) else PFloat (Fin (round q ndigits))
  | None => PFloat (Fin 0)
  end.

Definition get_statistics (db : table) : dict pyval :=
  let total := List.length db in
  let avg_conf := AVG (map confidence db) in
  let passed := List.length (filter (fun r => safety_passed r) db) in
  let rejected := List.length (filter (fun r => negb (safety_passed r)) db) in
  let avg_time :=
    AVG (flat_map (fun r => match processing_time_seconds r with
                            | Some t => [t]
                            | None => []
                            end) db) in
  if (total =? 0)%nat then
    [("total_decisions", PInt 0);
     ("avg_confidence", PFloat (Fin 0));
     ("pass_rate", PFloat (Fin 0));
     ("avg_processing_time", PFloat (Fin 0))]
  else
    [("total_decisions", PInt (Z.of_nat total));
     ("passed_decisions", PInt (Z.of_nat passed));
     ("rejected_decisions", PInt (Z.of_nat rejected));
     ("pass_rate",
      if (0 <? total)%nat
      then PFloat (Fin (Qred (Qmake (Z.of_nat passed) (Pos.of_nat total))))
      else PFloat (Fin 0));
     ("avg_confidence", rounded_or_zero avg_conf 3);
     ("avg_processing_time_seconds", rounded_or_zero avg_time 2)].

End AuditLogger.

(* ===================================================================== *)
(** ** backend/main.py *)
(* ===================================================================== *)

Module Main.

(** The warnings are added to the dict of the decision when there are
    some. *)
Record decision_dict : Type := {
  decision : DecisionObject.t;
  safety_warnings : option (list Gate.warning)
}.

Record CouncilResponse : Type := {
  status : string;
  decision_payload : option decision_dict;
  audit_id : string;
  reason : option string;
  processing_time_seconds : option Q
}.

(** What leaves the endpoint: a response, or the [HTTPException] of one of
    the two handlers, whose detail prints the exception caught. *)
Inductive detail : Type :=
| Str (e : exn)                     (* detail=str(e) *)
| InternalServerError (e : exn).    (* detail=f"Internal server error: {str(e)}" *)

Inductive outcome : Type :=
| Response (r : CouncilResponse)
| HTTPError (status_code : Z) (d : detail).

(** [not question or len(question.strip()) < 10] *)
Definition too_short (question : string) : bool :=
  (String.length question =? 0)%nat
  || (String.length (strip question) <? 10)%nat.

(** The body of the [try] of [deliberate]. *)
Definition deliberate_try (cfg : Config) (w : World) (db : AuditLogger.table)
    (question : string) : AuditLogger.table * result CouncilResponse :=
  if too_short question then
    (db, Raise (HTTPException 400 "Question must be at least 10 characters long"))
  else
    let agent_responses := Generator.stage1_generate_answers cfg w in
    match Evaluator.stage2_judge_evaluation cfg w agent_responses with
    | Raise e => (db, Raise e)
    | Ok judge_evaluations =>
    match Synthesizer.stage3_synthesize_decision
            cfg w question agent_responses judge_evaluations (start_time w) with
    | Raise e => (db, Raise e)
    | Ok decision =>
    match Gate.safety_check decision with
    | Raise e => (db, Raise e)
    | Ok safety_result =>
    match AuditLogger.log_decision db decision safety_result with
    | (db', Raise e) => (db', Raise e)
    | (db', Ok _) =>
        let processing_time := (end_time w - start_time w)%Q in
        if negb (Gate.passed safety_result) then
          (db', Ok {| status := "rejected";
                      decision_payload := None;
                      audit_id := DecisionObject.audit_id decision;
                      reason :=
                        Some ("Safety gate failed: "
                              ++ str_of_nat (List.length (Gate.violations safety_result))
                              ++ " violation(s) detected");
                      processing_time_seconds := Some (round processing_time 2) |})
        else
          (db', Ok {| status := "approved";
                      decision_payload :=
                        Some {| decision := decision;
                                safety_warnings :=
                                  match Gate.warnings safety_result with
                                  | [] => None
                                  | ws => Some ws
                                  end |};
                      audit_id := DecisionObject.audit_id decision;
                      reason := None;
                      processing_time_seconds := Some (round processing_time 2) |})
    end end end end.

(** [deliberate]: the [try] with [except ValueError] and
    [except Exception]. *)
Definition deliberate (cfg : Config) (w : World) (db : AuditLogger.table)
    (question : string) : AuditLogger.table * outcome :=
  match deliberate_try cfg w db question with
  | (db', Ok r) => (db', Response r)
  | (db', Raise e) =>
      if is_ValueError e then (db', HTTPError 400 (Str e))
      else (db', HTTPError 500 (InternalServerError e))
  end.

(** The endpoint that retrieves a logged decision: the row of the
    identifier, when there is one. *)
Record AuditQueryResponse : Type := {
  found : bool;
  data : option AuditLogger.row
}.

Definition get_audit (db : AuditLogger.table) (audit_id : string)
  : AuditQueryResponse :=
  match AuditLogger.get_decision db audit_id with
  | None => {| found := false; data := None |}
  | Some decision => {| found := true; data := Some decision |}
  end.

End Main.

(* ===================================================================== *)
(** * Properties *)
(* ===================================================================== *)

(** ** Worlds and replies used in the examples *)

Definition dq : string := String Json.quote EmptyString.

(** A call that is answered at once with the text [s]. *)
Definition answers (s : string) : OpenRouter.upstream :=
  fun _ => OpenRouter.Reply [("role", PStr "assistant"); ("content", PStr s)].

(** A call whose every request is rate limited. *)
Definition rate_limited : OpenRouter.upstream :=
  fun _ => OpenRouter.HTTPStatusError 429.

(** A judge's reply that ranks [agent_0], [agent_1], [agent_2], wrapped in
    prose and a markdown block. *)
Definition ranking_reply : string :=
  "Here is my evaluation: ```json {" ++ dq ++ "rankings" ++ dq ++ ": ["
  ++ dq ++ "agent_0" ++ dq ++ ", " ++ dq ++ "agent_1" ++ dq ++ ", "
  ++ dq ++ "agent_2" ++ dq ++ "], " ++ dq ++ "scores" ++ dq ++ ": {}, "
  ++ dq ++ "rationale" ++ dq ++ ": " ++ dq ++ "ok" ++ dq ++ "} ```".

(** A chairman's reply with the answer [a] and the confidence 0.9. *)
Definition synthesis_reply (a : string) : string :=
  "{" ++ dq ++ "final_answer" ++ dq ++ ": " ++ dq ++ a ++ dq ++ ", "
  ++ dq ++ "confidence" ++ dq ++ ": 0.9}".

(** A run in which every call is answered and the chairman answers [a]. *)
Definition calm_world (a : string) : World := {|
  start_time := 0;
  synthesis_time := 12345 # 1000;
  end_time := 13;
  agent_utcnow := fun i => Z.of_nat i;
  decision_utcnow := 10;
  uuid4 := "0b1e6f0e-5c3a-4f6e-9d55-7a1c2f3e4d5b";
  generator_upstream := fun _ => answers "Four.";
  judge_upstream := fun _ => answers ranking_reply;
  chairman_upstream := answers (synthesis_reply a)
|}.

Definition question_1 : string := "What is two plus two?".

(** [w] with other generators, judges or chairman. *)
Definition with_generators (ups : nat -> OpenRouter.upstream) (w : World) : World := {|
  start_time := start_time w;
  synthesis_time := synthesis_time w;
  end_time := end_time w;
  agent_utcnow := agent_utcnow w;
  decision_utcnow := decision_utcnow w;
  uuid4 := uuid4 w;
  generator_upstream := ups;
  judge_upstream := judge_upstream w;
  chairman_upstream := chairman_upstream w
|}.

Definition with_judges (ups : nat -> OpenRouter.upstream) (w : World) : World := {|
  start_time := start_time w;
  synthesis_time := synthesis_time w;
  end_time := end_time w;
  agent_utcnow := agent_utcnow w;
  decision_utcnow := decision_utcnow w;
  uuid4 := uuid4 w;
  generator_upstream := generator_upstream w;
  judge_upstream := ups;
  chairman_upstream := chairman_upstream w
|}.

Definition with_chairman (up : OpenRouter.upstream) (w : World) : World := {|
  start_time := start_time w;
  synthesis_time := synthesis_time w;
  end_time := end_time w;
  agent_utcnow := agent_utcnow w;
  decision_utcnow := decision_utcnow w;
  uuid4 := uuid4 w;
  generator_upstream := generator_upstream w;
  judge_upstream := judge_upstream w;
  chairman_upstream := up
|}.

(** A decision with a given confidence and given rankings of two judges,
    and nothing else of note. *)
Definition plain_decision (confidence : Q) (rank0 rank1 : list string)
  : DecisionObject.t := {|
  DecisionObject.question := question_1;
  DecisionObject.final_answer := "Four.";
  DecisionObject.confidence := confidence;
  DecisionObject.agent_responses := [];
  DecisionObject.judge_evaluations :=
    [ {| JudgeEvaluation.judge_id := "judge_0";
         JudgeEvaluation.model := "m0";
         JudgeEvaluation.rankings := rank0;
         JudgeEvaluation.scores := [];
         JudgeEvaluation.rationale := JudgeEvaluation.Text "ok" |};
      {| JudgeEvaluation.judge_id := "judge_1";
         JudgeEvaluation.model := "m1";
         JudgeEvaluation.rankings := rank1;
         JudgeEvaluation.scores := [];
         JudgeEvaluation.rationale := JudgeEvaluation.Text "ok" |} ];
  DecisionObject.risks := [];
  DecisionObject.citations := [];
  DecisionObject.timestamp := 10;
  DecisionObject.audit_id := "0b1e6f0e-5c3a-4f6e-9d55-7a1c2f3e4d5b";
  DecisionObject.processing_time_seconds := Some 1%Q
|}.

(** The reply [{"rankings": r}] of a judge, [r] being JSON text. *)
Definition rankings_reply (r : string) : string :=
  "{" ++ dq ++ "rankings" ++ dq ++ ": " ++ r ++ "}".

(** A run in which the first generator answers [Paris] and the calls for
    the other generators are rate limited at every request. *)
Definition starved_world : World :=
  with_generators
    (fun i => if (i =? 0)%nat then answers "Paris" else rate_limited)
    (calm_world "Four.").

(** A decision that draws two warnings and no violation, and the result
    of the gate for it. *)
Definition doubtful_decision : DecisionObject.t :=
  plain_decision (3 # 10) ["agent_0"; "agent_1"] ["agent_1"; "agent_0"].

Definition doubtful_result : Gate.SafetyResult := {|
  Gate.passed := true;
  Gate.violations := [];
  Gate.warnings := [Gate.LowConfidence (3 # 10) (5 # 10);
                    Gate.JudgeDisagreement "agent_0" "agent_1"];
  Gate.confidence := 3 # 10
|}.



(** A run in which each judge replies with an empty ranking. *)
Definition empty_ranking_world : World :=
  with_judges (fun _ => answers (rankings_reply "[]")) (calm_world "Four.").

(** A run in which the chairman's call is rate limited at every request,
    and one in which the chairman gives an answer and no confidence. *)
Definition silent_chairman_world : World :=
  with_chairman rate_limited (calm_world "Four.").

Definition terse_chairman_world : World :=
  with_chairman
    (answers ("{" ++ dq ++ "final_answer" ++ dq ++ ": " ++ dq ++ "Four." ++ dq ++ "}"))
    (calm_world "Four.").

(** The agent responses of the runs above. *)
Definition calm_agents : list AgentResponse.t :=
  Generator.stage1_generate_answers default_config (calm_world "Four.").

(** The evaluation that the i-th judge gives in [calm_world]. *)
Definition calm_evaluation (i : nat) (model : string) : JudgeEvaluation.t := {|
  JudgeEvaluation.judge_id := judge_name i;
  JudgeEvaluation.model := model;
  JudgeEvaluation.rankings := ["agent_0"; "agent_1"; "agent_2"];
  JudgeEvaluation.scores := [];
  JudgeEvaluation.rationale := JudgeEvaluation.Text "ok"
|}.

(** An agent response on its own. *)
Definition paris_response : AgentResponse.t := {|
  AgentResponse.agent_id := "agent_0";
  AgentResponse.model := "meta-llama/llama-3.2-3b-instruct:free";
  AgentResponse.response := "Paris is the capital of France.";
  AgentResponse.timestamp := 0
|}.

(** A field of what a computation returns. *)
Definition on_result {A B : Type} (f : A -> B) (r : result A) : result B :=
  x <- r ;; Ok (f x).

(** An attempt of [query_model] after which the loop goes on to the next
    one, when there is one: anything but a reply and the statuses 402 and
    404. *)
Definition retried (a : OpenRouter.attempt) : Prop :=
  (forall m, a <> OpenRouter.Reply m)
  /\ a <> OpenRouter.HTTPStatusError 402
  /\ a <> OpenRouter.HTTPStatusError 404.

(** A configuration that names the same generator twice. *)
Definition doubled_config : Config := {|
  GENERATOR_MODELS :=
    ["google/gemini-2.0-flash-exp:free";
     "mistralai/mistral-7b-instruct:free";
     "google/gemini-2.0-flash-exp:free"];
  JUDGE_MODELS := JUDGE_MODELS default_config;
  CHAIRMAN_MODEL := CHAIRMAN_MODEL default_config
|}.

(** A run in which the chairman replies with the empty object, and one in
    which the chairman replies with a list. *)
Definition empty_reply_world : World :=
  with_chairman (answers "{}") (calm_world "Four.").

Definition list_reply_world : World :=
  with_chairman (answers "[1]") (calm_world "Four.").

(** The table after the run of [calm_world] on an empty table. *)
Definition calm_table : AuditLogger.table :=
  fst (Main.deliberate default_config (calm_world "Four.") [] question_1).

(** A run in which the chairman gives a confidence beyond 1. *)
Definition overconfident_world : World :=
  with_chairman
    (answers ("{" ++ dq ++ "final_answer" ++ dq ++ ": " ++ dq ++ "Four." ++ dq ++ ", "
              ++ dq ++ "confidence" ++ dq ++ ": 1.5}"))
    (calm_world "Four.").

(** What the two handlers of [deliberate] make of an exception. *)
Definition handled (e : exn) : Main.outcome :=
  if is_ValueError e then Main.HTTPError 400 (Main.Str e)
  else Main.HTTPError 500 (Main.InternalServerError e).

(** ** Lists, dicts and names *)

Lemma dict_keys_set_new {V : Type} (k : string) (v : V) (d : dict V) :
  ~ In k (dict_keys d) -> dict_keys (dict_set k v d) = (dict_keys d ++ [k])%list.
Proof.
  induction d as [|[k' v'] d IH]; simpl; intros Hk; [reflexivity|].
  destruct (String.eqb_spec k k') as [->|Hne].
  - exfalso. apply Hk. now left.
  - simpl. f_equal. apply IH. intros Hin. apply Hk. now right.
Qed.

Lemma dict_keys_of_pairs_from {V : Type} (pairs : list (string * V)) :
  forall d : dict V,
    NoDup (dict_keys d ++ map fst pairs) ->
    dict_keys (fold_left (fun d kv => dict_set (fst kv) (snd kv) d) pairs d)
    = (dict_keys d ++ map fst pairs)%list.
Proof.
  induction pairs as [|[k v] pairs IH]; simpl; intros d Hnd.
  - now rewrite app_nil_r.
  - assert (Hk : ~ In k (dict_keys d)).
    { apply NoDup_remove_2 in Hnd. intros Hin. apply Hnd.
      apply in_or_app. now left. }
    rewrite IH; rewrite (dict_keys_set_new k v d Hk).
    + now rewrite <- app_assoc.
    + now rewrite <- app_assoc.
Qed.

Lemma dict_keys_of_pairs {V : Type} (pairs : list (string * V)) :
  NoDup (map fst pairs) -> dict_keys (dict_of_pairs pairs) = map fst pairs.
Proof.
  intros Hnd. unfold dict_of_pairs.
  now rewrite dict_keys_of_pairs_from.
Qed.

Lemma map_fst_combine {A B : Type} (l : list A) :
  forall l' : list B, List.length l = List.length l' -> map fst (combine l l') = l.
Proof.
  induction l as [|a l IH]; intros [|b l'] Hlen; simpl in *; try discriminate.
  - reflexivity.
  - f_equal. apply IH. lia.
Qed.

Lemma str_of_nat_inj (i j : nat) : str_of_nat i = str_of_nat j -> i = j.
Proof.
  unfold str_of_nat. intros H.
  apply DecimalNat.Unsigned.to_uint_inj.
  assert (Hs : Some (Nat.to_uint i) = Some (Nat.to_uint j)).
  { rewrite <- (NilEmpty.usu (Nat.to_uint i)), <- (NilEmpty.usu (Nat.to_uint j)).
    now rewrite H. }
  now inversion Hs.
Qed.

Lemma agent_name_inj (i j : nat) : agent_name i = agent_name j -> i = j.
Proof.
  unfold agent_name. simpl. intros H. apply str_of_nat_inj. now inversion H.
Qed.

Lemma length_append (a b : string) :
  String.length (a ++ b) = (String.length a + String.length b)%nat.
Proof. induction a as [|c a IH]; simpl; [reflexivity | now rewrite IH]. Qed.

Lemma length_take (n : nat) (s : string) : (String.length (take n s) <= n)%nat.
Proof.
  unfold take. revert s.
  induction n as [|n IH]; intros [|c s]; simpl; try lia.
  specialize (IH s). lia.
Qed.

(** ** The safety gate *)

Lemma passed_spec (d : DecisionObject.t) (r : Gate.SafetyResult) :
  Gate.safety_check d = Ok r ->
  Gate.passed r = (List.length (Gate.violations r) =? 0)%nat.
Proof.
  unfold Gate.safety_check.
  destruct (Gate.disagreement_warnings _) as [ws|e]; simpl; intros H;
    inversion H; reflexivity.
Qed.

(** C2.  A result that the safety gate returns has [passed] true exactly
    when its list of violations is empty; the warnings play no part: two
    results with the same violations have the same [passed]. *)
Theorem safety_passed_iff_no_violations
    (d : DecisionObject.t) (r : Gate.SafetyResult) :
  Gate.safety_check d = Ok r ->
  (Gate.passed r = true <-> Gate.violations r = [])
  /\ (forall d' r', Gate.safety_check d' = Ok r' ->
        Gate.violations r' = Gate.violations r ->
        Gate.passed r' = Gate.passed r).
Proof.
  intros H. split.
  - rewrite (passed_spec d r H).
    destruct (Gate.violations r); simpl; split; intros; congruence.
  - intros d' r' H' Hv.
    rewrite (passed_spec d r H), (passed_spec d' r' H'). now rewrite Hv.
Qed.

(** A result with two warnings and no violation: it passes. *)
Lemma safety_passed_iff_no_violations_witness :
  Gate.safety_check doubtful_decision = Ok doubtful_result
  /\ (Gate.passed doubtful_result = true <-> Gate.violations doubtful_result = []).
Proof.
  split; [reflexivity|].
  apply (safety_passed_iff_no_violations doubtful_decision doubtful_result).
  reflexivity.
Defined.

Lemma first_raises (l : list string) (e : exn) :
  Gate.first l = Raise e -> l = [] /\ e = IndexError.
Proof. destruct l; simpl; intros H; inversion H; auto. Qed.

(** The gate raises exactly when there are two evaluations and one of the
    first two has no ranking, and what it raises is [IndexError]. *)
Lemma safety_check_raises (d : DecisionObject.t) (e : exn) :
  Gate.safety_check d = Raise e <->
  e = IndexError
  /\ exists e0 e1 rest,
       DecisionObject.judge_evaluations d = e0 :: e1 :: rest
       /\ (JudgeEvaluation.rankings e0 = [] \/ JudgeEvaluation.rankings e1 = []).
Proof.
  unfold Gate.safety_check, Gate.disagreement_warnings.
  destruct (DecisionObject.judge_evaluations d) as [|e0 [|e1 rest]]; simpl.
  - split; [discriminate | intros [_ (a & b & c & H & _)]; discriminate].
  - split; [discriminate | intros [_ (a & b & c & H & _)]; discriminate].
  - destruct (JudgeEvaluation.rankings e0) as [|t0 r0] eqn:E0; simpl.
    + split.
      * intros H; inversion H. split; [reflexivity|].
        exists e0, e1, rest. rewrite E0. auto.
      * intros [-> _]. reflexivity.
    + destruct (JudgeEvaluation.rankings e1) as [|t1 r1] eqn:E1; simpl.
      * split.
        -- intros H; inversion H. split; [reflexivity|].
           exists e0, e1, rest. rewrite E1. auto.
        -- intros [-> _]. reflexivity.
      * split.
        -- destruct (negb (t0 =? t1)%string); discriminate.
        -- intros [_ (a & b & c & H & [Ha|Hb])]; inversion H; subst;
             congruence.
Qed.

(** C9.  The gate is not total: on a decision whose two evaluations carry
    empty rankings, check 4 indexes an empty list and the gate raises
    [IndexError] instead of returning a result. *)
Theorem safety_check_empty_rankings_raises :
  Gate.safety_check (plain_decision (9 # 10) [] []) = Raise IndexError.
Proof. reflexivity. Qed.

(** ** The audit store *)

(** C10.  Over a table without rows, [get_statistics] returns the count 0
    and the rates and means 0.0, under four keys. *)
Theorem get_statistics_empty_store :
  let stats := AuditLogger.get_statistics [] in
  dict_get "total_decisions" stats = Some (PInt 0)
  /\ dict_get "pass_rate" stats = Some (PFloat (Fin 0))
  /\ dict_get "avg_confidence" stats = Some (PFloat (Fin 0))
  /\ dict_get "avg_processing_time" stats = Some (PFloat (Fin 0))
  /\ List.length stats = 4%nat.
Proof. repeat split. Qed.

Lemma filter_no_key (db : AuditLogger.table) (id : string) :
  AuditLogger.has_key db id = false ->
  filter (fun x => String.eqb (AuditLogger.audit_id x) id) db = [].
Proof.
  unfold AuditLogger.has_key.
  induction db as [|x db IH]; simpl; [reflexivity|].
  destruct (String.eqb (AuditLogger.audit_id x) id); simpl; [discriminate|].
  exact IH.
Qed.

Lemma find_no_key (db : AuditLogger.table) (id : string) (r : AuditLogger.row) :
  AuditLogger.has_key db id = false ->
  AuditLogger.audit_id r = id ->
  AuditLogger.get_decision (db ++ [r])%list id = Some r.
Proof.
  unfold AuditLogger.has_key, AuditLogger.get_decision.
  intros Hk Hid.
  induction db as [|x db IH]; simpl in *.
  - now rewrite Hid, String.eqb_refl.
  - destruct (String.eqb (AuditLogger.audit_id x) id); simpl in *;
      [discriminate | now apply IH].
Qed.

(** What [log_decision] does to the table. *)
Lemma log_decision_spec (db db' : AuditLogger.table) (d : DecisionObject.t)
    (s : Gate.SafetyResult) (res : result string) :
  AuditLogger.log_decision db d s = (db', res) ->
  (AuditLogger.has_key db (DecisionObject.audit_id d) = true
   /\ db' = db /\ res = Raise IntegrityError)
  \/ (AuditLogger.has_key db (DecisionObject.audit_id d) = false
      /\ res = Ok (DecisionObject.audit_id d)
      /\ exists r, db' = (db ++ [r])%list
           /\ AuditLogger.audit_id r = DecisionObject.audit_id d
           /\ AuditLogger.safety_passed r = Gate.passed s).
Proof.
  unfold AuditLogger.log_decision.
  destruct (AuditLogger.has_key db (DecisionObject.audit_id d)); intros H;
    inversion H; subst; [left; auto | right].
  repeat split. eexists. repeat split.
Qed.

(** ** The stages *)

Lemma stage3_audit_id (cfg : Config) (w : World) (question : string)
    (agents : list AgentResponse.t) (evals : list JudgeEvaluation.t)
    (t0 : Q) (d : DecisionObject.t) :
  Synthesizer.stage3_synthesize_decision cfg w question agents evals t0 = Ok d ->
  DecisionObject.audit_id d = uuid4 w.
Proof.
  unfold Synthesizer.stage3_synthesize_decision.
  destruct (OpenRouter.query_model_json _ _) as [data|e]; simpl; [|discriminate].
  destruct (Synthesizer.as_dict data) as [dd|e]; simpl; [|discriminate].
  destruct (truthy _).
  - destruct agents; intros H; inversion H; reflexivity.
  - destruct (Schemas.iterate _) as [ri|e]; simpl; [|discriminate].
    destruct (mapM Schemas.Risk_of ri) as [rs|e]; simpl; [|discriminate].
    destruct (Schemas.iterate _) as [ci|e]; simpl; [|discriminate].
    destruct (mapM Schemas.Citation_of ci) as [cs|e]; simpl; [|discriminate].
    destruct (Schemas.validate_str _) as [fa|e]; simpl; [|discriminate].
    destruct (Schemas.validate_unit_float _) as [c|e]; simpl; [|discriminate].
    intros H; inversion H; reflexivity.
Qed.

(** ** The pipeline *)

(** C1.  A run that ends with a response, approved or rejected, has added
    exactly one row to the audit table: the table after the run is the
    table before it and that row; the row's key is the audit identifier of
    the response, the identifier drawn for this run, which no earlier row
    bears; and the row of a rejected run is there, with the safety flag
    false. *)
Theorem one_audit_record_per_run
    (cfg : Config) (w : World) (db db' : AuditLogger.table)
    (question : string) (r : Main.CouncilResponse) :
  Main.deliberate cfg w db question = (db', Main.Response r) ->
  (Main.status r = "approved" \/ Main.status r = "rejected")
  /\ Main.audit_id r = uuid4 w
  /\ AuditLogger.has_key db (Main.audit_id r) = false
  /\ exists row,
       db' = (db ++ [row])%list
       /\ AuditLogger.audit_id row = Main.audit_id r
       /\ filter (fun x => String.eqb (AuditLogger.audit_id x) (Main.audit_id r)) db'
          = [row]
       /\ AuditLogger.get_decision db' (Main.audit_id r) = Some row
       /\ (Main.status r = "approved" <-> AuditLogger.safety_passed row = true)
       /\ (Main.status r = "rejected" <-> AuditLogger.safety_passed row = false).
Proof.
  unfold Main.deliberate, Main.deliberate_try.
  destruct (Main.too_short question); [simpl; discriminate|].
  destruct (Evaluator.stage2_judge_evaluation _ _ _) as [evals|e];
    [|destruct (is_ValueError e); discriminate].
  destruct (Synthesizer.stage3_synthesize_decision _ _ _ _ _ _) as [d|e] eqn:E3;
    [|destruct (is_ValueError e); discriminate].
  destruct (Gate.safety_check d) as [s|e];
    [|destruct (is_ValueError e); discriminate].
  destruct (AuditLogger.log_decision db d s) as [db1 res] eqn:EL.
  apply log_decision_spec in EL.
  destruct EL as [(_ & _ & ->) | (Hk & -> & row & -> & Hid & Hp)];
    [simpl; discriminate|].
  pose proof (stage3_audit_id _ _ _ _ _ _ _ E3) as Hu.
  assert (Hrow :
    filter (fun x => String.eqb (AuditLogger.audit_id x) (DecisionObject.audit_id d))
           (db ++ [row])%list = [row]
    /\ AuditLogger.get_decision (db ++ [row])%list (DecisionObject.audit_id d)
       = Some row).
  { split.
    - rewrite filter_app, (filter_no_key _ _ Hk). simpl.
      now rewrite Hid, String.eqb_refl.
    - now apply find_no_key. }
  destruct Hrow as [Hf Hg].
  destruct (Gate.passed s) eqn:Ep; simpl; intros H; inversion H; subst; simpl;
    (split; [auto|]); (split; [exact Hu|]); (split; [exact Hk|]);
    exists row; rewrite Hp; repeat split; auto; discriminate.
Qed.

(** A run that is approved and a run that is rejected by the gate (its
    answer contains the word [hack]): each leaves its row. *)
Lemma one_audit_record_per_run_witness :
  (exists row,
      fst (Main.deliberate default_config (calm_world "Four.") [] question_1) = [row]
      /\ AuditLogger.safety_passed row = true)
  /\ (exists row,
      fst (Main.deliberate default_config (calm_world "You can hack it.") [] question_1)
      = [row]
      /\ AuditLogger.safety_passed row = false).
Proof.
  split.
  - destruct (Main.deliberate default_config (calm_world "Four.") [] question_1)
      as [db' o] eqn:E.
    assert (Ho : exists r, o = Main.Response r /\ Main.status r = "approved").
    { vm_compute in E. inversion E. eexists. split; reflexivity. }
    destruct Ho as (r & -> & Hs).
    destruct (one_audit_record_per_run _ _ _ _ _ _ E)
      as (_ & _ & _ & row & Hdb & _ & _ & _ & Ha & _).
    exists row. split; [exact Hdb | now apply Ha].
  - destruct (Main.deliberate default_config (calm_world "You can hack it.") [] question_1)
      as [db' o] eqn:E.
    assert (Ho : exists r, o = Main.Response r /\ Main.status r = "rejected").
    { vm_compute in E. inversion E. eexists. split; reflexivity. }
    destruct Ho as (r & -> & Hs).
    destruct (one_audit_record_per_run _ _ _ _ _ _ E)
      as (_ & _ & _ & row & Hdb & _ & _ & _ & _ & Hr).
    exists row. split; [exact Hdb | now apply Hr].
Defined.

(** A run that does not end with a response leaves the table as it was. *)
Lemma failed_run_writes_nothing
    (cfg : Config) (w : World) (db db' : AuditLogger.table)
    (question : string) (code : Z) (d : Main.detail) :
  Main.deliberate cfg w db question = (db', Main.HTTPError code d) -> db' = db.
Proof.
  unfold Main.deliberate, Main.deliberate_try.
  destruct (Main.too_short question); [simpl; intros H; now inversion H|].
  destruct (Evaluator.stage2_judge_evaluation _ _ _) as [evals|e];
    [|destruct (is_ValueError e); intros H; now inversion H].
  destruct (Synthesizer.stage3_synthesize_decision _ _ _ _ _ _) as [dec|e];
    [|destruct (is_ValueError e); intros H; now inversion H].
  destruct (Gate.safety_check dec) as [s|e];
    [|destruct (is_ValueError e); intros H; now inversion H].
  destruct (AuditLogger.log_decision db dec s) as [db1 res] eqn:EL.
  apply log_decision_spec in EL.
  destruct EL as [(_ & -> & ->) | (_ & -> & _)].
  - simpl. intros H; now inversion H.
  - destruct (negb (Gate.passed s)); discriminate.
Qed.

(** C8.  A question that is too short is refused before any stage is
    called, but the [HTTPException] with status 400 that the validation
    raises is inside the [try]: the handler for [Exception] catches it and
    the caller receives status 500, an internal server error. *)
Theorem short_question_is_internal_error
    (cfg : Config) (w : World) (db : AuditLogger.table) (question : string) :
  Main.too_short question = true ->
  Main.deliberate cfg w db question
  = (db, Main.HTTPError 500
           (Main.InternalServerError
              (HTTPException 400 "Question must be at least 10 characters long"))).
Proof.
  intros H. unfold Main.deliberate, Main.deliberate_try. now rewrite H.
Qed.

Lemma short_question_is_internal_error_witness :
  Main.too_short "  short   " = true
  /\ Main.deliberate default_config (calm_world "Four.") [] "  short   "
     = ([], Main.HTTPError 500
              (Main.InternalServerError
                 (HTTPException 400 "Question must be at least 10 characters long"))).
Proof.
  split; [reflexivity|].
  apply (short_question_is_internal_error default_config (calm_world "Four.") []).
  reflexivity.
Defined.

(** ** The JSON mode of the client *)

Lemma parse_content_raises (content : string) :
  Json.loads content = None ->
  Re.search_literal OpenRouter.code_block_pattern content = true ->
  OpenRouter.parse_content content = Raise IndexError.
Proof.
  intros Hl Hs. unfold OpenRouter.parse_content. now rewrite Hl, Hs.
Qed.

(** C4.  [query_model_json] lets a fault escape: when the content of the
    reply is not JSON as a whole and contains six backquotes in a row, the
    search for a code block matches and asks the match for a group that
    its pattern does not have; the [IndexError] is not caught. *)
Theorem query_model_json_raises
    (up : OpenRouter.upstream) (max_retries : nat)
    (response : OpenRouter.response) (content : string) :
  OpenRouter.query_model up max_retries = Some response ->
  OpenRouter.content response = PStr content ->
  Json.loads content = None ->
  Re.search_literal OpenRouter.code_block_pattern content = true ->
  OpenRouter.query_model_json up max_retries = Raise IndexError.
Proof.
  intros Hq Hc Hl Hs. unfold OpenRouter.query_model_json.
  rewrite Hq, Hc. now apply parse_content_raises.
Qed.

Lemma query_model_json_raises_witness :
  OpenRouter.query_model_json (answers "``````") 3 = Raise IndexError.
Proof.
  apply (query_model_json_raises (answers "``````") 3
           {| OpenRouter.content := PStr "``````";
              OpenRouter.reasoning_details := PNone |} "``````");
    reflexivity.
Defined.

(** What [query_model_json] returns need not be a dict: a content that is
    JSON for a list comes back as that list. *)
Lemma query_model_json_returns_list :
  OpenRouter.query_model_json (answers "[1]") 3 = Ok (PList [PInt 1]).
Proof. reflexivity. Qed.


(** A reply in prose around a markdown block is recovered by the scan for
    an object in braces. *)
Lemma query_model_json_recovers_object :
  OpenRouter.query_model_json (answers ranking_reply) 3
  = Ok (PDict [("rankings", PList [PStr "agent_0"; PStr "agent_1"; PStr "agent_2"]);
               ("scores", PDict []);
               ("rationale", PStr "ok")]).
Proof. reflexivity. Qed.

(** ** Stage 1 *)

Lemma nth_error_enumerate_from {A : Type} (l : list A) :
  forall (a i : nat) (x : A),
    nth_error l i = Some x ->
    nth_error (combine (seq a (List.length l)) l) i = Some ((a + i)%nat, x).
Proof.
  induction l as [|y l IH]; intros a [|i] x H; simpl in *; try discriminate.
  - inversion H. now rewrite Nat.add_0_r.
  - rewrite (IH (S a) i x H). f_equal. f_equal. lia.
Qed.

Lemma nth_error_enumerate {A : Type} (l : list A) (i : nat) (x : A) :
  nth_error l i = Some x -> nth_error (enumerate l) i = Some (i, x).
Proof. intros H. unfold enumerate. now rewrite (nth_error_enumerate_from l 0 i x H). Qed.


Lemma nth_error_combine {A B : Type} (l : list A) :
  forall (l' : list B) (i : nat) (a : A) (b : B),
    nth_error (combine l l') i = Some (a, b) <->
    nth_error l i = Some a /\ nth_error l' i = Some b.
Proof.
  induction l as [|x l IH]; intros [|y l'] [|i] a b; simpl;
    try (split; [discriminate | intros [H1 H2]; discriminate]).
  - split; [intros H; inversion H; auto | intros [H1 H2]; congruence].
  - apply IH.
Qed.

Lemma length_enumerate {A : Type} (l : list A) :
  List.length (enumerate l) = List.length l.
Proof.
  unfold enumerate. rewrite length_combine, length_seq. apply Nat.min_id.
Qed.

(** With distinct models, the keys of the dict of responses are the
    models, in order. *)
Lemma parallel_keys (ups : nat -> OpenRouter.upstream) (models : list string) :
  NoDup models ->
  dict_keys (OpenRouter.query_models_parallel ups models) = models.
Proof.
  intros Hnd. unfold OpenRouter.query_models_parallel.
  assert (Hfst : forall rs : list (option OpenRouter.response),
             List.length models = List.length rs ->
             map fst (combine models rs) = models)
    by (intros rs; apply map_fst_combine).
  rewrite dict_keys_of_pairs; rewrite Hfst; auto;
    now rewrite length_map, length_seq.
Qed.

(** The response field of stage 1 is the key of the dict, the name of the
    model, and not what the model replied. *)
Lemma stage1_response_is_model_name (cfg : Config) (w : World) :
  NoDup (GENERATOR_MODELS cfg) ->
  map AgentResponse.response (Generator.stage1_generate_answers cfg w)
  = GENERATOR_MODELS cfg.
Proof.
  intros Hnd. unfold Generator.stage1_generate_answers.
  rewrite (parallel_keys _ _ Hnd).
  apply nth_error_ext. intros i.
  rewrite !nth_error_map.
  destruct (nth_error (GENERATOR_MODELS cfg) i) as [m|] eqn:E.
  - assert (Hc : nth_error (combine (GENERATOR_MODELS cfg) (GENERATOR_MODELS cfg)) i
                 = Some (m, m)) by (apply nth_error_combine; auto).
    now rewrite (nth_error_enumerate _ _ _ Hc).
  - apply nth_error_None in E.
    assert (Hn : nth_error
                   (enumerate (combine (GENERATOR_MODELS cfg) (GENERATOR_MODELS cfg))) i
                 = None).
    { apply nth_error_None.
      rewrite length_enumerate, length_combine, Nat.min_id. exact E. }
    now rewrite Hn.
Qed.

(** The identities of stage 1 are [agent_0], [agent_1], ... in order. *)
Lemma stage1_agent_ids (cfg : Config) (w : World) :
  map AgentResponse.agent_id (Generator.stage1_generate_answers cfg w)
  = map agent_name (seq 0 (List.length (Generator.stage1_generate_answers cfg w))).
Proof.
  unfold Generator.stage1_generate_answers.
  set (l := combine (GENERATOR_MODELS cfg) _).
  rewrite length_map, length_enumerate.
  apply nth_error_ext. intros i.
  rewrite !nth_error_map.
  destruct (nth_error l i) as [[m r]|] eqn:E.
  - rewrite (nth_error_enumerate _ _ _ E). simpl.
    assert (Hi : (i < List.length l)%nat) by (apply nth_error_Some; congruence).
    assert (Hs : nth_error (seq 0 (List.length l)) i = Some i).
    { rewrite nth_error_nth' with (d := 0%nat) by now rewrite length_seq.
      now rewrite seq_nth. }
    now rewrite Hs.
  - apply nth_error_None in E.
    assert (H1 : nth_error (enumerate l) i = None)
      by (apply nth_error_None; now rewrite length_enumerate).
    assert (H2 : nth_error (seq 0 (List.length l)) i = None)
      by (apply nth_error_None; now rewrite length_seq).
    now rewrite H1, H2.
Qed.

(** C3, as amended.  Over N distinct generator identities, whatever the
    calls come to (answered, or failed after their retries), stage 1
    returns N agent responses in positional order: the i-th bears the
    identity [agent_i] and the i-th model. *)
Theorem stage1_positional (cfg : Config) (w : World) :
  NoDup (GENERATOR_MODELS cfg) ->
  List.length (Generator.stage1_generate_answers cfg w)
  = List.length (GENERATOR_MODELS cfg)
  /\ forall (i : nat) (model : string),
       nth_error (GENERATOR_MODELS cfg) i = Some model ->
       exists r,
         nth_error (Generator.stage1_generate_answers cfg w) i = Some r
         /\ AgentResponse.agent_id r = agent_name i
         /\ AgentResponse.model r = model.
Proof.
  intros Hnd. unfold Generator.stage1_generate_answers.
  rewrite (parallel_keys _ _ Hnd). split.
  - now rewrite length_map, length_enumerate, length_combine, Nat.min_id.
  - intros i m Hm.
    assert (Hc : nth_error (combine (GENERATOR_MODELS cfg) (GENERATOR_MODELS cfg)) i
                 = Some (m, m)) by (apply nth_error_combine; auto).
    rewrite nth_error_map, (nth_error_enumerate _ _ _ Hc). simpl.
    eexists. repeat split.
Qed.

Lemma stage1_positional_witness :
  List.length (Generator.stage1_generate_answers default_config starved_world) = 3%nat.
Proof.
  apply (stage1_positional default_config starved_world).
  repeat constructor; simpl; intuition discriminate.
Defined.

(** C3 as stated fails.  In [starved_world] the first model replies
    [Paris] and the second call fails after its retries; the responses of
    stage 1 are the three model names: the reply is not there, and no
    response says that a model was unavailable. *)
Lemma stage1_counterexample :
  OpenRouter.query_model (generator_upstream starved_world 0) 3
  = Some {| OpenRouter.content := PStr "Paris";
            OpenRouter.reasoning_details := PNone |}
  /\ OpenRouter.query_model (generator_upstream starved_world 1) 3 = None
  /\ map AgentResponse.response
         (Generator.stage1_generate_answers default_config starved_world)
     = ["meta-llama/llama-3.2-3b-instruct:free";
        "google/gemini-2.0-flash-exp:free";
        "mistralai/mistral-7b-instruct:free"]
  /\ existsb (fun r => Re.search_literal "unavailable" (AgentResponse.response r))
             (Generator.stage1_generate_answers default_config starved_world)
     = false.
Proof. repeat split. Qed.

(** ** Stage 2 *)















(** ** Stage 3 *)

(** On the normal path a reply without a [confidence] field gets the
    default, one half. *)
Lemma normal_path_default_confidence
    (cfg : Config) (w : World) (question : string)
    (agents : list AgentResponse.t) (evals : list JudgeEvaluation.t) (t0 : Q)
    (d : dict pyval) (decision : DecisionObject.t) :
  OpenRouter.query_model_json (chairman_upstream w) 3 = Ok (PDict d) ->
  truthy (get_default "fallback" PNone d) = false ->
  dict_get "confidence" d = None ->
  Synthesizer.stage3_synthesize_decision cfg w question agents evals t0 = Ok decision ->
  DecisionObject.confidence decision = 5 # 10.
Proof.
  intros Hq Hf Hc. unfold Synthesizer.stage3_synthesize_decision.
  rewrite Hq. simpl. rewrite Hf.
  destruct (Schemas.iterate _) as [ri|e]; simpl; [|discriminate].
  destruct (mapM Schemas.Risk_of ri) as [rs|e]; simpl; [|discriminate].
  destruct (Schemas.iterate _) as [ci|e]; simpl; [|discriminate].
  destruct (mapM Schemas.Citation_of ci) as [cs|e]; simpl; [|discriminate].
  destruct (Schemas.validate_str _) as [fa|e]; simpl; [|discriminate].
  unfold get_default at 1. rewrite Hc. simpl.
  intros H; inversion H; reflexivity.
Qed.

(** C7, as amended.  When the chairman's reply is fallback-tagged and
    there is a first agent response, stage 3 returns a decision whose
    confidence is one half, the value that the normal path takes when the
    reply has no confidence field; whose only risk is the [api_error] risk
    of medium severity; without citations; and whose answer is a fixed
    lead, the first 200 characters of the first agent response and an
    ellipsis, 227 characters at most. *)
Theorem fallback_decision
    (cfg : Config) (w : World) (question : string)
    (first : AgentResponse.t) (rest : list AgentResponse.t)
    (evals : list JudgeEvaluation.t) (t0 : Q) (d : dict pyval) :
  OpenRouter.query_model_json (chairman_upstream w) 3 = Ok (PDict d) ->
  truthy (get_default "fallback" PNone d) = true ->
  exists decision,
    Synthesizer.stage3_synthesize_decision cfg w question (first :: rest) evals t0
    = Ok decision
    /\ DecisionObject.confidence decision = 5 # 10
    /\ (forall w' question' agents' evals' t0' d' decision',
          OpenRouter.query_model_json (chairman_upstream w') 3 = Ok (PDict d') ->
          truthy (get_default "fallback" PNone d') = false ->
          dict_get "confidence" d' = None ->
          Synthesizer.stage3_synthesize_decision cfg w' question' agents' evals' t0'
          = Ok decision' ->
          DecisionObject.confidence decision' = DecisionObject.confidence decision)
    /\ DecisionObject.risks decision
       = [ {| Risk.category := "api_error";
              Risk.severity := "medium";
              Risk.description := "Chairman synthesis failed, using fallback" |} ]
    /\ DecisionObject.citations decision = []
    /\ DecisionObject.final_answer decision
       = "Based on the responses: " ++ take 200 (AgentResponse.response first) ++ "..."
    /\ (String.length (DecisionObject.final_answer decision) <= 227)%nat.
Proof.
  intros Hq Hf. unfold Synthesizer.stage3_synthesize_decision.
  rewrite Hq. simpl. rewrite Hf.
  eexists. split; [reflexivity|]. simpl.
  split; [reflexivity|]. split.
  - intros w' question' agents' evals' t0' d' decision' Hq' Hf' Hc' H'.
    exact (normal_path_default_confidence cfg w' question' agents' evals' t0' d'
             decision' Hq' Hf' Hc' H').
  - split; [reflexivity|]. split; [reflexivity|]. split; [reflexivity|].
    unfold Synthesizer.fallback_answer.
    rewrite !length_append.
    pose proof (length_take 200 (AgentResponse.response first)). simpl. lia.
Qed.

Lemma fallback_decision_witness :
  exists decision,
    Synthesizer.stage3_synthesize_decision
      default_config silent_chairman_world question_1 [paris_response] [] 0
    = Ok decision
    /\ DecisionObject.confidence decision = 5 # 10
    /\ DecisionObject.final_answer decision
       = "Based on the responses: Paris is the capital of France....".
Proof.
  destruct (fallback_decision default_config silent_chairman_world question_1
              paris_response [] [] 0
              [("rankings", OpenRouter.default_ranking);
               ("scores", PDict []);
               ("rationale", PStr "API error - using default ranking");
               ("final_answer",
                PStr "Unable to generate synthesis due to API rate limits");
               ("confidence", PFloat (Fin (3 # 10)));
               ("risks", PList []);
               ("citations", PList []);
               ("fallback", PBool true)]
              eq_refl eq_refl)
    as (decision & Hd & Hc & _ & _ & _ & Ha & _).
  exists decision. split; [exact Hd|]. split; [exact Hc|]. exact Ha.
Defined.

(** C7 as stated fails.  The chairman of [silent_chairman_world] gives no
    reply, so that the reply is fallback-tagged; the chairman of
    [terse_chairman_world] gives an answer without a confidence field.  The
    two decisions have the same confidence, one half. *)
Lemma fallback_confidence_counterexample :
  on_result (fun o => match o with
                      | PDict d => dict_get "fallback" d
                      | _ => None
                      end)
    (OpenRouter.query_model_json (chairman_upstream silent_chairman_world) 3)
  = Ok (Some (PBool true))
  /\ OpenRouter.query_model_json (chairman_upstream terse_chairman_world) 3
     = Ok (PDict [("final_answer", PStr "Four.")])
  /\ on_result DecisionObject.confidence
       (Synthesizer.stage3_synthesize_decision
          default_config silent_chairman_world question_1 calm_agents [] 0)
     = Ok (5 # 10)
  /\ on_result DecisionObject.confidence
       (Synthesizer.stage3_synthesize_decision
          default_config terse_chairman_world question_1 calm_agents [] 0)
     = Ok (5 # 10).
Proof. repeat split. Qed.

(** ** Whole runs *)

(** Judges that reply with an empty ranking bring the gate to raise: the
    run ends as an internal server error and writes no row. *)
Lemma empty_rankings_reach_the_gate :
  Main.deliberate default_config empty_ranking_world [] question_1
  = ([], Main.HTTPError 500 (Main.InternalServerError IndexError)).
Proof. reflexivity. Qed.

(** A judge whose content holds six backquotes brings stage 2 to raise. *)
Lemma backquotes_reach_the_endpoint :
  Main.deliberate default_config
    (with_judges (fun _ => answers "``````") (calm_world "Four.")) [] question_1
  = ([], Main.HTTPError 500 (Main.InternalServerError IndexError)).
Proof. reflexivity. Qed.

(** The run of the specification's first scenario: approved, one row. *)
Lemma calm_run_is_approved :
  (exists r,
      snd (Main.deliberate default_config (calm_world "Four.") [] question_1)
      = Main.Response r
      /\ Main.status r = "approved")
  /\ List.length
       (fst (Main.deliberate default_config (calm_world "Four.") [] question_1))
     = 1%nat.
Proof. split; [eexists; split; reflexivity | reflexivity]. Qed.

(* ===================================================================== *)
(** * Further properties of the code *)
(* ===================================================================== *)

(** ** The retry loop of [query_model] *)

Lemma query_model_loop_step (up : OpenRouter.upstream) (n rem : nat) :
  (S rem <= n)%nat ->
  fst (OpenRouter.query_model_loop up n (S rem))
  = match up (n - S rem)%nat with
    | OpenRouter.Reply message =>
        Some {| OpenRouter.content := get_default "content" PNone message;
                OpenRouter.reasoning_details :=
                  get_default "reasoning_details" PNone message |}
    | OpenRouter.HTTPStatusError c =>
        if (c =? 402) || (c =? 404) then None
        else fst (OpenRouter.query_model_loop up n rem)
    | _ => fst (OpenRouter.query_model_loop up n rem)
    end.
Proof.
  intros Hle. cbn [OpenRouter.query_model_loop].
  assert (Hlast : (n - S rem <? n - 1)%nat = false -> rem = 0%nat).
  { intros H. apply Nat.ltb_ge in H. lia. }
  destruct (up (n - S rem)%nat) as [m|c| |]; [reflexivity| | |].
  - destruct (c =? 429) eqn:E429.
    + apply Z.eqb_eq in E429. subst c. simpl.
      destruct (n - S rem <? n - 1)%nat eqn:El; simpl.
      * now destruct (OpenRouter.query_model_loop up n rem).
      * now rewrite (Hlast eq_refl).
    + simpl. destruct (c =? 402); [reflexivity|].
      destruct (c =? 404); [reflexivity|]. simpl.
      destruct (n - S rem <? n - 1)%nat eqn:El; simpl.
      * now destruct (OpenRouter.query_model_loop up n rem).
      * now rewrite (Hlast eq_refl).
  - destruct (n - S rem <? n - 1)%nat eqn:El; simpl.
    + now destruct (OpenRouter.query_model_loop up n rem).
    + now rewrite (Hlast eq_refl).
  - destruct (n - S rem <? n - 1)%nat eqn:El; simpl.
    + now destruct (OpenRouter.query_model_loop up n rem).
    + now rewrite (Hlast eq_refl).
Qed.

Lemma query_model_loop_some (up : OpenRouter.upstream) (n : nat)
    (r : OpenRouter.response) :
  forall rem : nat,
    (rem <= n)%nat ->
    (fst (OpenRouter.query_model_loop up n rem) = Some r <->
     exists k m,
       (n - rem <= k < n)%nat
       /\ up k = OpenRouter.Reply m
       /\ r = {| OpenRouter.content := get_default "content" PNone m;
                 OpenRouter.reasoning_details :=
                   get_default "reasoning_details" PNone m |}
       /\ forall j, (n - rem <= j < k)%nat -> retried (up j)).
Proof.
  induction rem as [|rem IH]; intros Hle.
  - simpl. split; [discriminate|]. intros (k & m & Hk & _). lia.
  - rewrite (query_model_loop_step up n rem Hle).
    assert (Hrem : (rem <= n)%nat) by lia. specialize (IH Hrem).
    assert (Hnext : (n - rem = S (n - S rem))%nat) by lia.
    (* the cases in which the loop goes on *)
    assert (Hgo : retried (up (n - S rem)%nat) ->
                  (fst (OpenRouter.query_model_loop up n rem) = Some r <->
                   exists k m,
                     (n - S rem <= k < n)%nat
                     /\ up k = OpenRouter.Reply m
                     /\ r = {| OpenRouter.content := get_default "content" PNone m;
                               OpenRouter.reasoning_details :=
                                 get_default "reasoning_details" PNone m |}
                     /\ forall j, (n - S rem <= j < k)%nat -> retried (up j))).
    { intros Hret. rewrite IH. split.
      - intros (k & m & Hk & Hr & -> & Hj). exists k, m.
        split; [lia|]. split; [exact Hr|]. split; [reflexivity|].
        intros j Hjk. destruct (Nat.eq_dec j (n - S rem)) as [->|Hne];
          [exact Hret | apply Hj; lia].
      - intros (k & m & Hk & Hr & -> & Hj).
        destruct (Nat.eq_dec k (n - S rem)) as [->|Hne].
        + exfalso. destruct Hret as [Hno _]. exact (Hno m Hr).
        + exists k, m. split; [lia|]. split; [exact Hr|].
          split; [reflexivity|]. intros j Hjk. apply Hj. lia. }
    (* the cases in which it stops without a response *)
    assert (Hstop : ~ retried (up (n - S rem)%nat) ->
                    (forall m, up (n - S rem)%nat <> OpenRouter.Reply m) ->
                    ~ exists k m,
                        (n - S rem <= k < n)%nat
                        /\ up k = OpenRouter.Reply m
                        /\ r = {| OpenRouter.content := get_default "content" PNone m;
                                  OpenRouter.reasoning_details :=
                                    get_default "reasoning_details" PNone m |}
                        /\ forall j, (n - S rem <= j < k)%nat -> retried (up j)).
    { intros Hnot Hno (k & m & Hk & Hr & _ & Hj).
      destruct (Nat.eq_dec k (n - S rem)) as [->|Hne].
      - exact (Hno m Hr).
      - apply Hnot. apply Hj. lia. }
    destruct (up (n - S rem)%nat) as [m|c| |] eqn:Eu.
    + split.
      * intros H. inversion H; subst. exists (n - S rem)%nat, m.
        split; [lia|]. split; [exact Eu|]. split; [reflexivity|].
        intros j Hj. lia.
      * intros (k & m' & Hk & Hr & -> & Hj).
        destruct (Nat.eq_dec k (n - S rem)) as [->|Hne].
        -- rewrite Eu in Hr. now inversion Hr.
        -- exfalso. destruct (Hj (n - S rem)%nat) as [Hno _]; [lia|].
           exact (Hno m Eu).
    + destruct ((c =? 402) || (c =? 404)) eqn:Ec.
      * split; [discriminate|]. intros H. exfalso. revert H. apply Hstop.
        -- intros (_ & H402 & H404).
           apply orb_true_iff in Ec. destruct Ec as [E|E];
             apply Z.eqb_eq in E; subst c; congruence.
        -- intros m'. discriminate.
      * apply Hgo. apply orb_false_iff in Ec. destruct Ec as [E2 E4].
        apply Z.eqb_neq in E2, E4.
        repeat split; [intros m'; discriminate
                      | intros H'; inversion H'; congruence
                      | intros H'; inversion H'; congruence].
    + apply Hgo. repeat split; discriminate.
    + apply Hgo. repeat split; discriminate.
Qed.

(** [query_model] returns a response exactly when one of its at most
    [max_retries] requests is answered and every request before that one
    failed in a way that is retried: a status 402 or 404 ends the call at
    once. *)
Theorem query_model_succeeds_iff
    (up : OpenRouter.upstream) (max_retries : nat) (r : OpenRouter.response) :
  OpenRouter.query_model up max_retries = Some r <->
  exists k m,
    (k < max_retries)%nat
    /\ up k = OpenRouter.Reply m
    /\ r = {| OpenRouter.content := get_default "content" PNone m;
              OpenRouter.reasoning_details := get_default "reasoning_details" PNone m |}
    /\ forall j, (j < k)%nat -> retried (up j).
Proof.
  unfold OpenRouter.query_model.
  rewrite (query_model_loop_some up max_retries r max_retries (Nat.le_refl _)).
  rewrite Nat.sub_diag.
  split; intros (k & m & Hk & Hr & Hm & Hj); exists k, m;
    (split; [lia|]); (split; [exact Hr|]); (split; [exact Hm|]);
    intros j Hjk; apply Hj; lia.
Qed.

Lemma query_model_loop_unfold (up : OpenRouter.upstream) (n rem : nat) :
  OpenRouter.query_model_loop up n (S rem)
  = let attempt := (n - S rem)%nat in
    let next := OpenRouter.query_model_loop up n rem in
    let retry_or_give_up :=
      if (attempt <? n - 1)%nat then (fst next, 1 :: snd next) else (None, []) in
    match up attempt with
    | OpenRouter.Reply message =>
        (Some {| OpenRouter.content := get_default "content" PNone message;
                 OpenRouter.reasoning_details :=
                   get_default "reasoning_details" PNone message |}, [])
    | OpenRouter.HTTPStatusError c =>
        if (c =? 429) && (attempt <? n - 1)%nat
        then (fst next, 2 ^ Z.of_nat attempt :: snd next)
        else if c =? 402 then (None, [])
        else if c =? 404 then (None, [])
        else retry_or_give_up
    | _ => retry_or_give_up
    end.
Proof.
  cbn [OpenRouter.query_model_loop].
  destruct (OpenRouter.query_model_loop up n rem) as [r slept]. reflexivity.
Qed.

Lemma rate_limited_loop (up : OpenRouter.upstream) (n : nat) :
  (forall k, (k < n)%nat -> up k = OpenRouter.HTTPStatusError 429) ->
  forall rem : nat,
    (rem <= n)%nat ->
    OpenRouter.query_model_loop up n rem
    = (None, map (fun k => 2 ^ Z.of_nat k) (seq (n - rem) (rem - 1))).
Proof.
  intros Hup. induction rem as [|rem IH]; intros Hle; [reflexivity|].
  rewrite query_model_loop_unfold. cbv zeta.
  rewrite (Hup (n - S rem)%nat) by lia.
  rewrite IH by lia. simpl fst. simpl snd.
  destruct (n - S rem <? n - 1)%nat eqn:El.
  - apply Nat.ltb_lt in El. simpl andb. cbv iota.
    replace (S rem - 1)%nat with (S (rem - 1)) by lia.
    replace (n - rem)%nat with (S (n - S rem)) by lia.
    reflexivity.
  - apply Nat.ltb_ge in El. simpl.
    replace (rem - 0)%nat with 0%nat by lia. reflexivity.
Qed.

(** When every request is rate limited, [query_model] gives up after
    [max_retries] requests, between which it has slept 1, 2, 4, ...
    seconds: one delay less than requests, each the double of the one
    before. *)
Theorem query_model_backoff (up : OpenRouter.upstream) (max_retries : nat) :
  (forall k, (k < max_retries)%nat -> up k = OpenRouter.HTTPStatusError 429) ->
  OpenRouter.query_model_loop up max_retries max_retries
  = (None, map (fun k => 2 ^ Z.of_nat k) (seq 0 (max_retries - 1))).
Proof.
  intros Hup.
  rewrite (rate_limited_loop up max_retries Hup max_retries (Nat.le_refl _)).
  now rewrite Nat.sub_diag.
Qed.

Lemma query_model_backoff_witness :
  OpenRouter.query_model_loop rate_limited 4 4 = (None, [1; 2; 4]).
Proof.
  apply (query_model_backoff rate_limited 4). intros k _. reflexivity.
Defined.

Lemma sleeps_of_loop (up : OpenRouter.upstream) (n : nat) :
  forall rem : nat,
    (rem <= n)%nat ->
    (List.length (snd (OpenRouter.query_model_loop up n rem)) <= rem - 1)%nat
    /\ Forall (fun d => 1 <= d <= 2 ^ (Z.of_nat n - 2))
         (snd (OpenRouter.query_model_loop up n rem)).
Proof.
  induction rem as [|rem IH]; intros Hle; [simpl; auto|].
  rewrite query_model_loop_unfold. cbv zeta.
  destruct (IH ltac:(lia)) as [IHl IHf].
  assert (Hone : (n - S rem < n - 1)%nat -> 1 <= 1 <= 2 ^ (Z.of_nat n - 2)).
  { intros Hlt. split; [lia|].
    change 1 with (2 ^ 0) at 1. apply Z.pow_le_mono_r; lia. }
  assert (Hpow : (n - S rem < n - 1)%nat ->
                 1 <= 2 ^ Z.of_nat (n - S rem) <= 2 ^ (Z.of_nat n - 2)).
  { intros Hlt. split.
    - change 1 with (2 ^ 0) at 1. apply Z.pow_le_mono_r; lia.
    - apply Z.pow_le_mono_r; lia. }
  assert (Hretry :
    (List.length
       (snd (if (n - S rem <? n - 1)%nat
             then (fst (OpenRouter.query_model_loop up n rem),
                   1%Z :: snd (OpenRouter.query_model_loop up n rem))
             else (None, []))) <= S rem - 1)%nat
    /\ Forall (fun d => 1 <= d <= 2 ^ (Z.of_nat n - 2))
         (snd (if (n - S rem <? n - 1)%nat
               then (fst (OpenRouter.query_model_loop up n rem),
                     1 :: snd (OpenRouter.query_model_loop up n rem))
               else (None, [])))).
  { destruct (n - S rem <? n - 1)%nat eqn:El; simpl; [|split; [lia|constructor]].
    apply Nat.ltb_lt in El. split; [lia|]. constructor; auto. }
  destruct (up (n - S rem)%nat) as [m|c| |]; try exact Hretry.
  - simpl. split; [lia|constructor].
  - destruct ((c =? 429) && (n - S rem <? n - 1)%nat) eqn:Ec.
    + apply andb_true_iff in Ec. destruct Ec as [_ El]. apply Nat.ltb_lt in El.
      simpl. split; [lia|]. constructor; auto.
    + destruct (c =? 402); [simpl; split; [lia|constructor]|].
      destruct (c =? 404); [simpl; split; [lia|constructor]|].
      exact Hretry.
Qed.

(** [query_model] sleeps fewer times than it may send requests, and each
    delay is at least one second and at most [2 ^ (max_retries - 2)]
    seconds. *)
Theorem query_model_sleeps (up : OpenRouter.upstream) (max_retries : nat) :
  (List.length (snd (OpenRouter.query_model_loop up max_retries max_retries))
   <= max_retries - 1)%nat
  /\ Forall (fun d => 1 <= d <= 2 ^ (Z.of_nat max_retries - 2))
       (snd (OpenRouter.query_model_loop up max_retries max_retries)).
Proof. apply sleeps_of_loop. lia. Qed.

(** ** The JSON mode of the client, continued *)


Lemma query_model_json_exn (up : OpenRouter.upstream) (n : nat) (e : exn) :
  OpenRouter.query_model_json up n = Raise e -> e = IndexError.
Proof.
  unfold OpenRouter.query_model_json.
  destruct (OpenRouter.query_model up n) as [r|]; [|discriminate].
  destruct (OpenRouter.content r) as [| | | |s| |]; try discriminate.
  unfold OpenRouter.parse_content.
  destruct (Json.loads s); [discriminate|].
  destruct (Re.search_literal OpenRouter.code_block_pattern s); simpl.
  - intros H; now inversion H.
  - destruct (Re.search_object s) as [o|]; simpl;
      [destruct (Json.loads o)|]; discriminate.
Qed.

Lemma object_body_closes (s : string) :
  forall (inner : bool) (n : nat),
    Re.object_body inner s = Some n ->
    exists body rest,
      s = body ++ String Re.rbrace rest
      /\ substring 0 n s = body ++ String Re.rbrace EmptyString.
Proof.
  induction s as [|c s IH]; intros inner n H; simpl in H; [discriminate|].
  assert (Hrec : forall inner' m,
             Re.object_body inner' s = Some m ->
             exists body rest,
               String c s = body ++ String Re.rbrace rest
               /\ substring 0 (S m) (String c s)
                  = body ++ String Re.rbrace EmptyString).
  { intros inner' m Hm. destruct (IH inner' m Hm) as (body & rest & Hs & Hsub).
    exists (String c body), rest. simpl. now rewrite <- Hs, Hsub. }
  assert (Hmap : forall inner',
             option_map S (Re.object_body inner' s) = Some n ->
             exists body rest,
               String c s = body ++ String Re.rbrace rest
               /\ substring 0 n (String c s) = body ++ String Re.rbrace EmptyString).
  { intros inner' Hm. destruct (Re.object_body inner' s) as [m|] eqn:Em;
      simpl in Hm; [|discriminate].
    inversion Hm; subst. now apply (Hrec inner'). }
  destruct (Ascii.eqb_spec c Re.rbrace) as [->|Hr].
  - destruct inner; [now apply (Hmap false)|].
    inversion H; subst. exists EmptyString, s. split; [reflexivity|].
    simpl. now destruct s.
  - destruct (Ascii.eqb c Re.lbrace).
    + destruct inner; [discriminate | now apply (Hmap true)].
    + now apply (Hmap inner).
Qed.

(** What the scan for an object in braces extracts is a piece of the
    content that begins with an opening brace and ends with a closing
    brace. *)
Theorem search_object_is_braced (s o : string) :
  Re.search_object s = Some o ->
  exists before body after,
    s = before ++ o ++ after
    /\ o = String Re.lbrace (body ++ String Re.rbrace EmptyString).
Proof.
  induction s as [|c s IH]; simpl; [discriminate|].
  assert (Hskip : Re.search_object s = Some o ->
                  exists before body after,
                    String c s = before ++ o ++ after
                    /\ o = String Re.lbrace (body ++ String Re.rbrace EmptyString)).
  { intros H. destruct (IH H) as (before & body & after & Hs & Ho).
    exists (String c before), body, after. simpl. now rewrite <- Hs. }
  destruct (Ascii.eqb_spec c Re.lbrace) as [->|Hne]; [|exact Hskip].
  destruct (Re.object_body false s) as [n|] eqn:En; [|exact Hskip].
  intros H. inversion H; subst; clear H.
  destruct (object_body_closes s false n En) as (body & rest & Hs & Hsub).
  exists EmptyString, body, rest.
  cbn [substring]. rewrite Hsub. simpl. split; [|reflexivity].
  f_equal. rewrite Hs.
  clear. induction body as [|b body IHb]; simpl; [reflexivity | now rewrite IHb].
Qed.

Lemma search_object_is_braced_witness :
  exists before body after,
    "see {a{b}c} and }" = before ++ "{a{b}c}" ++ after
    /\ "{a{b}c}" = String Re.lbrace (body ++ String Re.rbrace EmptyString).
Proof.
  apply (search_object_is_braced "see {a{b}c} and }" "{a{b}c}"). reflexivity.
Defined.

(** When the chairman's call gives no response, or a response without
    content, stage 3 does not fail: with at least one agent response it
    returns the fallback decision, built from the first agent response. *)
Theorem failed_chairman_call
    (cfg : Config) (w : World) (question : string)
    (first : AgentResponse.t) (rest : list AgentResponse.t)
    (evals : list JudgeEvaluation.t) (t0 : Q) :
  (OpenRouter.query_model (chairman_upstream w) 3 = None
   \/ exists r, OpenRouter.query_model (chairman_upstream w) 3 = Some r
                /\ OpenRouter.content r = PNone) ->
  Synthesizer.stage3_synthesize_decision cfg w question (first :: rest) evals t0
  = Ok {| DecisionObject.question := question;
          DecisionObject.final_answer :=
            "Based on the responses: "
            ++ take 200 (AgentResponse.response first) ++ "...";
          DecisionObject.confidence := 5 # 10;
          DecisionObject.agent_responses := first :: rest;
          DecisionObject.judge_evaluations := evals;
          DecisionObject.risks :=
            [ {| Risk.category := "api_error";
                 Risk.severity := "medium";
                 Risk.description := "Chairman synthesis failed, using fallback" |} ];
          DecisionObject.citations := [];
          DecisionObject.timestamp := decision_utcnow w;
          DecisionObject.audit_id := uuid4 w;
          DecisionObject.processing_time_seconds :=
            Some (round (synthesis_time w - t0)%Q 2) |}.
Proof.
  unfold Synthesizer.stage3_synthesize_decision, OpenRouter.query_model_json.
  intros [H | (r & H & Hc)]; rewrite H; [|rewrite Hc]; reflexivity.
Qed.

Lemma failed_chairman_call_witness :
  on_result DecisionObject.final_answer
    (Synthesizer.stage3_synthesize_decision
       default_config silent_chairman_world question_1 [paris_response] [] 0)
  = Ok "Based on the responses: Paris is the capital of France....".
Proof.
  rewrite (failed_chairman_call default_config silent_chairman_world question_1
             paris_response [] [] 0 (or_introl eq_refl)).
  reflexivity.
Defined.

(** When a judge's call gives no response, its evaluation is not the
    default of stage 2: it carries the ranking [agent_0], [agent_1],
    [agent_2] of the client's fallback dict, whatever the number of agents,
    and no scores. *)
Theorem failed_judge_call
    (agents : list AgentResponse.t) (i : nat) (model : string)
    (up : OpenRouter.upstream) :
  OpenRouter.query_model up 3 = None ->
  exists output,
    OpenRouter.query_model_json up 3 = Ok output
    /\ Evaluator.judge agents i model output
       = {| JudgeEvaluation.judge_id := judge_name i;
            JudgeEvaluation.model := model;
            JudgeEvaluation.rankings := ["agent_0"; "agent_1"; "agent_2"];
            JudgeEvaluation.scores := [];
            JudgeEvaluation.rationale :=
              JudgeEvaluation.Text "API error - using default ranking" |}.
Proof.
  intros H. unfold OpenRouter.query_model_json. rewrite H.
  eexists. split; reflexivity.
Qed.

Lemma failed_judge_call_witness :
  exists output,
    OpenRouter.query_model_json rate_limited 3 = Ok output
    /\ JudgeEvaluation.rankings (Evaluator.judge [paris_response] 0 "m" output)
       = ["agent_0"; "agent_1"; "agent_2"].
Proof.
  destruct (failed_judge_call [paris_response] 0 "m" rate_limited eq_refl)
    as (output & Ho & Hj).
  exists output. split; [exact Ho|]. now rewrite Hj.
Defined.

(** ** Stage 1, continued *)

Lemma stage1_response_is_model_name_witness :
  map AgentResponse.response
      (Generator.stage1_generate_answers default_config starved_world)
  = GENERATOR_MODELS default_config.
Proof.
  apply (stage1_response_is_model_name default_config starved_world).
  repeat constructor; simpl; intuition discriminate.
Defined.

(** The identities that stage 1 gives are pairwise distinct. *)
Theorem stage1_agent_ids_distinct (cfg : Config) (w : World) :
  NoDup (map AgentResponse.agent_id (Generator.stage1_generate_answers cfg w)).
Proof.
  rewrite stage1_agent_ids.
  generalize (List.length (Generator.stage1_generate_answers cfg w)).
  intros n. generalize 0%nat.
  induction n as [|n IH]; intros a; simpl; constructor.
  - rewrite in_map_iff. intros (j & Hj & Hin).
    apply agent_name_inj in Hj. subst j.
    apply in_seq in Hin. lia.
  - apply IH.
Qed.

Lemma dict_keys_set_in {V : Type} (k k' : string) (v : V) (d : dict V) :
  In k' (dict_keys (dict_set k v d)) <-> k' = k \/ In k' (dict_keys d).
Proof.
  induction d as [|[k0 v0] d IH]; simpl.
  - intuition.
  - destruct (String.eqb_spec k k0) as [->|Hne]; simpl.
    + intuition.
    + rewrite IH. intuition.
Qed.

Lemma dict_keys_set_NoDup {V : Type} (k : string) (v : V) (d : dict V) :
  NoDup (dict_keys d) -> NoDup (dict_keys (dict_set k v d)).
Proof.
  induction d as [|[k0 v0] d IH]; simpl; intros Hnd.
  - constructor; [intros [] | constructor].
  - inversion Hnd as [|? ? Hnotin Hnd']; subst.
    destruct (String.eqb_spec k k0) as [->|Hne]; simpl.
    + now constructor.
    + constructor; [|now apply IH].
      rewrite dict_keys_set_in. intros [Heq|Hin]; [now apply Hne | now apply Hnotin].
Qed.

Lemma dict_of_pairs_keys {V : Type} (pairs : list (string * V)) :
  forall d : dict V,
    NoDup (dict_keys d) ->
    NoDup (dict_keys (fold_left (fun d kv => dict_set (fst kv) (snd kv) d) pairs d))
    /\ forall k,
         In k (dict_keys (fold_left (fun d kv => dict_set (fst kv) (snd kv) d) pairs d))
         <-> In k (dict_keys d) \/ In k (map fst pairs).
Proof.
  induction pairs as [|[k0 v0] pairs IH]; simpl; intros d Hnd.
  - split; [exact Hnd | intuition].
  - destruct (IH (dict_set k0 v0 d) (dict_keys_set_NoDup k0 v0 d Hnd)) as [Hn Hin].
    split; [exact Hn|]. intros k. rewrite Hin, dict_keys_set_in. intuition.
Qed.

(** The number of keys of the dict of responses. *)
Lemma parallel_keys_count (ups : nat -> OpenRouter.upstream) (models : list string) :
  (List.length (dict_keys (OpenRouter.query_models_parallel ups models))
   <= List.length models)%nat
  /\ (~ NoDup models ->
      (List.length (dict_keys (OpenRouter.query_models_parallel ups models))
       < List.length models)%nat).
Proof.
  unfold OpenRouter.query_models_parallel, dict_of_pairs.
  set (rs := map _ _).
  assert (Hlen : List.length models = List.length rs)
    by (unfold rs; now rewrite length_map, length_seq).
  destruct (dict_of_pairs_keys (combine models rs) [] (NoDup_nil _)) as [Hnd Hin].
  rewrite (map_fst_combine models rs Hlen) in Hin.
  set (keys := dict_keys _) in *.
  assert (Hincl : incl keys models).
  { intros k Hk. apply Hin in Hk. destruct Hk as [[]|Hk]; exact Hk. }
  split.
  - now apply NoDup_incl_length.
  - intros Hdup.
    destruct (Nat.lt_ge_cases (List.length keys) (List.length models)) as [Hlt|Hge];
      [exact Hlt|].
    exfalso. apply Hdup.
    apply (NoDup_incl_NoDup Hnd Hge). exact Hincl.
Qed.

(** Stage 1 never returns more responses than there are generators, and
    it returns fewer when the list of generators names one model twice:
    the responses are gathered in a dict keyed by model. *)
Theorem stage1_duplicates_shrink (cfg : Config) (w : World) :
  (List.length (Generator.stage1_generate_answers cfg w)
   <= List.length (GENERATOR_MODELS cfg))%nat
  /\ (~ NoDup (GENERATOR_MODELS cfg) ->
      (List.length (Generator.stage1_generate_answers cfg w)
       < List.length (GENERATOR_MODELS cfg))%nat).
Proof.
  unfold Generator.stage1_generate_answers.
  rewrite length_map, length_enumerate, length_combine.
  destruct (parallel_keys_count (generator_upstream w) (GENERATOR_MODELS cfg))
    as [Hle Hlt].
  split; [lia|]. intros Hdup. specialize (Hlt Hdup). lia.
Qed.

Lemma stage1_duplicates_shrink_witness :
  (List.length (Generator.stage1_generate_answers doubled_config (calm_world "Four."))
   < 3)%nat.
Proof.
  apply (proj2 (stage1_duplicates_shrink doubled_config (calm_world "Four."))).
  intros H. inversion H as [|? ? Hnotin _]; subst.
  apply Hnotin. simpl. auto.
Defined.

(** ** Stage 2, continued *)

Lemma mapM_length {A B : Type} (f : A -> result B) (l : list A) :
  forall ys : list B, mapM f l = Ok ys -> List.length ys = List.length l.
Proof.
  induction l as [|x l IH]; simpl; intros ys H.
  - now inversion H.
  - destruct (f x) as [b|e]; simpl in H; [|discriminate].
    destruct (mapM f l) as [bs|e]; simpl in H; [|discriminate].
    inversion H; subst. simpl. f_equal. now apply IH.
Qed.

Lemma mapM_raise {A B : Type} (f : A -> result B) (l : list A) (e : exn) :
  mapM f l = Raise e -> exists x, In x l /\ f x = Raise e.
Proof.
  induction l as [|x l IH]; simpl; [discriminate|].
  destruct (f x) as [b|e'] eqn:Ef; simpl.
  - destruct (mapM f l) as [bs|e'']; simpl; [discriminate|].
    intros H; inversion H; subst.
    destruct (IH eq_refl) as (y & Hy & Hf). exists y. auto.
  - intros H; inversion H; subst. exists x. auto.
Qed.

(** When stage 2 returns, it returns one evaluation per judge, in the
    order of the judges: the i-th bears the identity [judge_i] and the
    i-th judge model. *)
Theorem stage2_positional
    (cfg : Config) (w : World) (agents : list AgentResponse.t)
    (evals : list JudgeEvaluation.t) :
  Evaluator.stage2_judge_evaluation cfg w agents = Ok evals ->
  List.length evals = List.length (JUDGE_MODELS cfg)
  /\ forall (i : nat) (model : string),
       nth_error (JUDGE_MODELS cfg) i = Some model ->
       exists e,
         nth_error evals i = Some e
         /\ JudgeEvaluation.judge_id e = judge_name i
         /\ JudgeEvaluation.model e = model.
Proof.
  unfold Evaluator.stage2_judge_evaluation, Evaluator.judge_outputs.
  destruct (mapM _ _) as [outputs|err] eqn:Em; simpl; [|discriminate].
  intros H; inversion H; subst; clear H.
  pose proof (mapM_length _ _ _ Em) as Hlen. rewrite length_seq in Hlen.
  split.
  - rewrite length_map, length_enumerate, length_combine. lia.
  - intros i model Hm.
    assert (Hi : (i < List.length outputs)%nat).
    { rewrite Hlen. apply nth_error_Some. congruence. }
    destruct (nth_error outputs i) as [output|] eqn:Eo;
      [|apply nth_error_None in Eo; lia].
    assert (Hc : nth_error (combine (JUDGE_MODELS cfg) outputs) i
                 = Some (model, output)) by (apply nth_error_combine; auto).
    rewrite nth_error_map, (nth_error_enumerate _ _ _ Hc). simpl.
    eexists. split; [reflexivity|].
    unfold Evaluator.judge.
    destruct (Evaluator.evaluate agents i model output) as [e|err] eqn:Ee;
      [|split; reflexivity].
    unfold Evaluator.evaluate in Ee.
    destruct output as [| | | | | |d]; try (inversion Ee; split; reflexivity).
    destruct (dict_get "rankings" d) as [r|];
      [|inversion Ee; split; reflexivity].
    destruct (Schemas.validate_str_list r); simpl in Ee; [|discriminate].
    destruct (Schemas.validate_scores _); simpl in Ee; [|discriminate].
    destruct (Schemas.validate_str _); simpl in Ee; [|discriminate].
    inversion Ee; split; reflexivity.
Qed.

Lemma stage2_positional_witness :
  exists e,
    nth_error [calm_evaluation 0 "meta-llama/llama-3.2-3b-instruct:free";
               calm_evaluation 1 "google/gemini-2.0-flash-exp:free"] 1 = Some e
    /\ JudgeEvaluation.judge_id e = "judge_1"
    /\ JudgeEvaluation.model e = "google/gemini-2.0-flash-exp:free".
Proof.
  apply (proj2 (stage2_positional default_config (calm_world "Four.") calm_agents
                  [calm_evaluation 0 "meta-llama/llama-3.2-3b-instruct:free";
                   calm_evaluation 1 "google/gemini-2.0-flash-exp:free"]
                  eq_refl) 1%nat "google/gemini-2.0-flash-exp:free").
  reflexivity.
Defined.



(** A reply that is a dict with a list of strings under [rankings] and
    without the keys [scores] and [rationale] is accepted: the evaluation
    has these rankings, an empty score mapping and the rationale
    [No rationale provided]. *)
Theorem judge_missing_fields
    (agents : list AgentResponse.t) (i : nat) (model : string)
    (d : dict pyval) (r : pyval) (rankings : list string) :
  dict_get "rankings" d = Some r ->
  Schemas.validate_str_list r = Ok rankings ->
  dict_get "scores" d = None ->
  dict_get "rationale" d = None ->
  Evaluator.judge agents i model (PDict d)
  = {| JudgeEvaluation.judge_id := judge_name i;
       JudgeEvaluation.model := model;
       JudgeEvaluation.rankings := rankings;
       JudgeEvaluation.scores := [];
       JudgeEvaluation.rationale := JudgeEvaluation.Text "No rationale provided" |}.
Proof.
  intros Hr Hv Hs Ht.
  unfold Evaluator.judge, Evaluator.evaluate, get_default.
  now rewrite Hr, Hv, Hs, Ht.
Qed.

Lemma judge_missing_fields_witness :
  Evaluator.judge calm_agents 0 "m" (PDict [("rankings", PList [PStr "agent_1"])])
  = {| JudgeEvaluation.judge_id := "judge_0";
       JudgeEvaluation.model := "m";
       JudgeEvaluation.rankings := ["agent_1"];
       JudgeEvaluation.scores := [];
       JudgeEvaluation.rationale := JudgeEvaluation.Text "No rationale provided" |}.
Proof.
  apply (judge_missing_fields calm_agents 0 "m"
           [("rankings", PList [PStr "agent_1"])] (PList [PStr "agent_1"])
           ["agent_1"]); reflexivity.
Defined.

(** ** Stage 3, continued *)

Lemma validate_unit_float_range (v : pyval) (q : Q) :
  Schemas.validate_unit_float v = Ok q -> (0 <= q)%Q /\ (q <= 1)%Q.
Proof.
  unfold Schemas.validate_unit_float.
  destruct (Schemas.validate_float v) as [[x| |]|]; simpl; try discriminate.
  destruct (Qle_bool 0 x && Qle_bool x 1) eqn:E; [|discriminate].
  intros H; inversion H; subst.
  apply andb_true_iff in E. destruct E as [E0 E1].
  split; now apply Qle_bool_iff.
Qed.

(** The confidence of a decision that stage 3 returns lies between 0 and
    1. *)
Theorem stage3_confidence_in_unit_interval
    (cfg : Config) (w : World) (question : string)
    (agents : list AgentResponse.t) (evals : list JudgeEvaluation.t)
    (t0 : Q) (d : DecisionObject.t) :
  Synthesizer.stage3_synthesize_decision cfg w question agents evals t0 = Ok d ->
  (0 <= DecisionObject.confidence d)%Q /\ (DecisionObject.confidence d <= 1)%Q.
Proof.
  unfold Synthesizer.stage3_synthesize_decision.
  destruct (OpenRouter.query_model_json _ _) as [data|e]; simpl; [|discriminate].
  destruct (Synthesizer.as_dict data) as [dd|e]; simpl; [|discriminate].
  destruct (truthy _).
  - destruct agents; intros H; inversion H; simpl.
    unfold Synthesizer.fallback_confidence. split; discriminate.
  - destruct (Schemas.iterate _) as [ri|e]; simpl; [|discriminate].
    destruct (mapM Schemas.Risk_of ri) as [rs|e]; simpl; [|discriminate].
    destruct (Schemas.iterate _) as [ci|e]; simpl; [|discriminate].
    destruct (mapM Schemas.Citation_of ci) as [cs|e]; simpl; [|discriminate].
    destruct (Schemas.validate_str _) as [fa|e]; simpl; [|discriminate].
    destruct (Schemas.validate_unit_float _) as [c|e] eqn:Ec; simpl; [|discriminate].
    intros H; inversion H; simpl.
    exact (validate_unit_float_range _ _ Ec).
Qed.

Lemma stage3_confidence_in_unit_interval_witness :
  (0 <= 9 # 10)%Q /\ (9 # 10 <= 1)%Q.
Proof.
  exact (stage3_confidence_in_unit_interval
           default_config (calm_world "Four.") question_1 [] [] 0
           {| DecisionObject.question := question_1;
              DecisionObject.final_answer := "Four.";
              DecisionObject.confidence := 9 # 10;
              DecisionObject.agent_responses := [];
              DecisionObject.judge_evaluations := [];
              DecisionObject.risks := [];
              DecisionObject.citations := [];
              DecisionObject.timestamp := 10;
              DecisionObject.audit_id := "0b1e6f0e-5c3a-4f6e-9d55-7a1c2f3e4d5b";
              DecisionObject.processing_time_seconds := Some (round (12345 # 1000) 2) |}
           eq_refl).
Defined.

(** A decision that stage 3 returns carries the question, the agent
    responses and the evaluations it was given, unchanged, the identifier
    and the time stamp drawn for the run, and the time elapsed since the
    start rounded to two digits. *)
Theorem stage3_carries_inputs
    (cfg : Config) (w : World) (question : string)
    (agents : list AgentResponse.t) (evals : list JudgeEvaluation.t)
    (t0 : Q) (d : DecisionObject.t) :
  Synthesizer.stage3_synthesize_decision cfg w question agents evals t0 = Ok d ->
  DecisionObject.question d = question
  /\ DecisionObject.agent_responses d = agents
  /\ DecisionObject.judge_evaluations d = evals
  /\ DecisionObject.audit_id d = uuid4 w
  /\ DecisionObject.timestamp d = decision_utcnow w
  /\ DecisionObject.processing_time_seconds d
     = Some (round (synthesis_time w - t0)%Q 2).
Proof.
  unfold Synthesizer.stage3_synthesize_decision.
  destruct (OpenRouter.query_model_json _ _) as [data|e]; simpl; [|discriminate].
  destruct (Synthesizer.as_dict data) as [dd|e]; simpl; [|discriminate].
  destruct (truthy _).
  - destruct agents; intros H; inversion H; simpl. repeat split.
  - destruct (Schemas.iterate _) as [ri|e]; simpl; [|discriminate].
    destruct (mapM Schemas.Risk_of ri) as [rs|e]; simpl; [|discriminate].
    destruct (Schemas.iterate _) as [ci|e]; simpl; [|discriminate].
    destruct (mapM Schemas.Citation_of ci) as [cs|e]; simpl; [|discriminate].
    destruct (Schemas.validate_str _) as [fa|e]; simpl; [|discriminate].
    destruct (Schemas.validate_unit_float _) as [c|e]; simpl; [|discriminate].
    intros H; inversion H; simpl. repeat split.
Qed.

Lemma stage3_carries_inputs_witness :
  exists d,
    Synthesizer.stage3_synthesize_decision
      default_config (calm_world "Four.") question_1 [paris_response] [] 0 = Ok d
    /\ DecisionObject.agent_responses d = [paris_response]
    /\ DecisionObject.audit_id d = "0b1e6f0e-5c3a-4f6e-9d55-7a1c2f3e4d5b".
Proof.
  destruct (Synthesizer.stage3_synthesize_decision
              default_config (calm_world "Four.") question_1 [paris_response] [] 0)
    as [d|e] eqn:E; [|vm_compute in E; discriminate E].
  destruct (stage3_carries_inputs _ _ _ _ _ _ _ E) as (_ & Ha & _ & Hi & _ & _).
  exists d. split; [reflexivity|]. split; [exact Ha|]. exact Hi.
Defined.

Lemma required_exn {V : Type} (f : pyval -> result V) (k : string)
    (kwargs : dict pyval) (e : exn) :
  (forall v e', f v = Raise e' -> e' = ValidationError) ->
  Schemas.required f k kwargs = Raise e -> e = ValidationError.
Proof.
  intros Hf. unfold Schemas.required.
  destruct (dict_get k kwargs) as [v|]; [apply Hf|].
  intros H; now inversion H.
Qed.

Lemma validate_str_exn (v : pyval) (e : exn) :
  Schemas.validate_str v = Raise e -> e = ValidationError.
Proof. destruct v; simpl; intros H; inversion H; reflexivity. Qed.

Lemma validate_unit_float_exn (v : pyval) (e : exn) :
  Schemas.validate_unit_float v = Raise e -> e = ValidationError.
Proof.
  unfold Schemas.validate_unit_float.
  destruct v as [| |n|[q| |]| | |]; simpl; intros H; try (now inversion H).
  - destruct (Qle_bool 0 (inject_Z n) && Qle_bool (inject_Z n) 1);
      now inversion H.
  - destruct (Qle_bool 0 q && Qle_bool q 1); now inversion H.
Qed.

Lemma Risk_of_exn (r : pyval) (e : exn) :
  Schemas.Risk_of r = Raise e -> e = TypeError \/ e = ValidationError.
Proof.
  destruct r as [| | | | | |kw]; simpl; try (intros H; inversion H; now left).
  destruct (Schemas.required Schemas.validate_str "category" kw) eqn:E1; simpl.
  - destruct (Schemas.required Schemas.validate_str "severity" kw) eqn:E2; simpl.
    + destruct (Schemas.required Schemas.validate_str "description" kw) eqn:E3;
        simpl; [discriminate|].
      intros H; inversion H; subst. right.
      exact (required_exn _ _ _ _ validate_str_exn E3).
    + intros H; inversion H; subst. right.
      exact (required_exn _ _ _ _ validate_str_exn E2).
  - intros H; inversion H; subst. right.
    exact (required_exn _ _ _ _ validate_str_exn E1).
Qed.

Lemma Citation_of_exn (c : pyval) (e : exn) :
  Schemas.Citation_of c = Raise e -> e = TypeError \/ e = ValidationError.
Proof.
  destruct c as [| | | | | |kw]; simpl; try (intros H; inversion H; now left).
  destruct (Schemas.required Schemas.validate_str "source" kw) eqn:E1; simpl.
  - destruct (Schemas.required Schemas.validate_str "excerpt" kw) eqn:E2; simpl.
    + destruct (Schemas.required Schemas.validate_unit_float "confidence" kw) eqn:E3;
        simpl; [discriminate|].
      intros H; inversion H; subst. right.
      exact (required_exn _ _ _ _ validate_unit_float_exn E3).
    + intros H; inversion H; subst. right.
      exact (required_exn _ _ _ _ validate_str_exn E2).
  - intros H; inversion H; subst. right.
    exact (required_exn _ _ _ _ validate_str_exn E1).
Qed.

Lemma iterate_exn (v : pyval) (e : exn) :
  Schemas.iterate v = Raise e -> e = TypeError.
Proof. destruct v; simpl; intros H; inversion H; reflexivity. Qed.

(** The exceptions of stage 3 and where they come from. *)
Lemma stage3_exn
    (cfg : Config) (w : World) (question : string)
    (agents : list AgentResponse.t) (evals : list JudgeEvaluation.t)
    (t0 : Q) (e : exn) :
  Synthesizer.stage3_synthesize_decision cfg w question agents evals t0 = Raise e ->
  (e = IndexError
   /\ (OpenRouter.query_model_json (chairman_upstream w) 3 = Raise IndexError
       \/ agents = []))
  \/ (e = AttributeError
      /\ exists v, OpenRouter.query_model_json (chairman_upstream w) 3 = Ok v
                   /\ forall d, v <> PDict d)
  \/ ((e = TypeError \/ e = ValidationError)
      /\ exists d, OpenRouter.query_model_json (chairman_upstream w) 3 = Ok (PDict d)
                   /\ truthy (get_default "fallback" PNone d) = false).
Proof.
  unfold Synthesizer.stage3_synthesize_decision.
  destruct (OpenRouter.query_model_json _ _) as [data|e0] eqn:Eq; simpl.
  - destruct data as [| | | | | |dd]; simpl;
      try (intros H; inversion H; subst; right; left; split; [reflexivity|];
           eexists; split; [reflexivity | intros d; discriminate]).
    destruct (truthy _) eqn:Ef.
    + destruct agents; [|discriminate].
      intros H; inversion H; subst. left. auto.
    + intros H. right. right.
      assert (He : e = TypeError \/ e = ValidationError).
      { destruct (Schemas.iterate (get_default "risks" (PList []) dd))
          as [ri|e1] eqn:E1; simpl in H;
          [|inversion H; subst; left; exact (iterate_exn _ _ E1)].
        destruct (mapM Schemas.Risk_of ri) as [rs|e2] eqn:E2; simpl in H.
        2:{ inversion H; subst. destruct (mapM_raise _ _ _ E2) as (x & _ & Hx).
            exact (Risk_of_exn _ _ Hx). }
        destruct (Schemas.iterate (get_default "citations" (PList []) dd))
          as [ci|e3] eqn:E3; simpl in H;
          [|inversion H; subst; left; exact (iterate_exn _ _ E3)].
        destruct (mapM Schemas.Citation_of ci) as [cs|e4] eqn:E4; simpl in H.
        2:{ inversion H; subst. destruct (mapM_raise _ _ _ E4) as (x & _ & Hx).
            exact (Citation_of_exn _ _ Hx). }
        destruct (Schemas.validate_str _) as [fa|e5] eqn:E5; simpl in H;
          [|inversion H; subst; right; exact (validate_str_exn _ _ E5)].
        destruct (Schemas.validate_unit_float _) as [c|e6] eqn:E6; simpl in H;
          [discriminate|].
        inversion H; subst. right. exact (validate_unit_float_exn _ _ E6). }
      split; [exact He|]. exists dd. auto.
  - intros H; inversion H; subst.
    pose proof (query_model_json_exn _ _ _ Eq) as ->. left. auto.
Qed.

(** Stage 3 raises [AttributeError] exactly when the chairman's reply is
    JSON for something that is not an object: it is asked for its
    [fallback] field before its type is looked at. *)
Theorem stage3_attribute_error_iff
    (cfg : Config) (w : World) (question : string)
    (agents : list AgentResponse.t) (evals : list JudgeEvaluation.t) (t0 : Q) :
  Synthesizer.stage3_synthesize_decision cfg w question agents evals t0
  = Raise AttributeError
  <-> exists v, OpenRouter.query_model_json (chairman_upstream w) 3 = Ok v
                /\ forall d, v <> PDict d.
Proof.
  split.
  - intros H. apply stage3_exn in H.
    destruct H as [[He _] | [[_ Hv] | [[He|He] _]]];
      try discriminate He. exact Hv.
  - intros (v & Hq & Hv). unfold Synthesizer.stage3_synthesize_decision.
    rewrite Hq. simpl.
    destruct v as [| | | | | |d]; try reflexivity.
    exfalso. exact (Hv d eq_refl).
Qed.

(** A chairman's reply that is an object without any of the fields gives
    the decision of the defaults: the answer [No answer generated], the
    confidence one half, no risk and no citation. *)
Theorem stage3_missing_fields
    (cfg : Config) (w : World) (question : string)
    (agents : list AgentResponse.t) (evals : list JudgeEvaluation.t)
    (t0 : Q) (d : dict pyval) :
  OpenRouter.query_model_json (chairman_upstream w) 3 = Ok (PDict d) ->
  dict_get "fallback" d = None ->
  dict_get "risks" d = None ->
  dict_get "citations" d = None ->
  dict_get "final_answer" d = None ->
  dict_get "confidence" d = None ->
  Synthesizer.stage3_synthesize_decision cfg w question agents evals t0
  = Ok {| DecisionObject.question := question;
          DecisionObject.final_answer := "No answer generated";
          DecisionObject.confidence := 5 # 10;
          DecisionObject.agent_responses := agents;
          DecisionObject.judge_evaluations := evals;
          DecisionObject.risks := [];
          DecisionObject.citations := [];
          DecisionObject.timestamp := decision_utcnow w;
          DecisionObject.audit_id := uuid4 w;
          DecisionObject.processing_time_seconds :=
            Some (round (synthesis_time w - t0)%Q 2) |}.
Proof.
  intros Hq Hf Hr Hc Ha Hk.
  unfold Synthesizer.stage3_synthesize_decision, get_default.
  rewrite Hq. simpl. now rewrite Hf, Hr, Hc, Ha, Hk.
Qed.

Lemma stage3_missing_fields_witness :
  on_result DecisionObject.final_answer
    (Synthesizer.stage3_synthesize_decision
       default_config empty_reply_world question_1 [] [] 0)
  = Ok "No answer generated".
Proof.
  rewrite (stage3_missing_fields default_config empty_reply_world question_1
             [] [] 0 [] eq_refl eq_refl eq_refl eq_refl eq_refl eq_refl).
  reflexivity.
Defined.

(** A chairman that replies with a JSON list ends the request as an
    internal server error. *)
Lemma list_reply_is_internal_error :
  Main.deliberate default_config list_reply_world [] question_1
  = ([], Main.HTTPError 500 (Main.InternalServerError AttributeError)).
Proof. reflexivity. Qed.

(** ** The safety gate, continued *)

Lemma safety_check_result (d : DecisionObject.t) (r : Gate.SafetyResult) :
  Gate.safety_check d = Ok r ->
  exists ws4,
    Gate.disagreement_warnings (DecisionObject.judge_evaluations d) = Ok ws4
    /\ Gate.violations r
       = (Gate.pattern_violations (DecisionObject.final_answer d)
          ++ Gate.risk_violations (DecisionObject.risks d))%list
    /\ Gate.warnings r
       = (Gate.confidence_warnings (DecisionObject.confidence d) ++ ws4)%list
    /\ Gate.confidence r = DecisionObject.confidence d
    /\ Gate.passed r = (List.length (Gate.violations r) =? 0)%nat.
Proof.
  unfold Gate.safety_check.
  destruct (Gate.disagreement_warnings _) as [ws|e]; simpl; intros H;
    inversion H; subst; simpl. exists ws. repeat split.
Qed.

Lemma pattern_violations_nil (final_answer : string) :
  Gate.pattern_violations final_answer = []
  <-> Forall (fun pc => Re.search_word_alt (fst pc) final_answer = false)
        Gate.UNSAFE_PATTERNS.
Proof.
  unfold Gate.pattern_violations.
  induction Gate.UNSAFE_PATTERNS as [|[p c] l IH]; simpl.
  - split; [constructor | reflexivity].
  - destruct (Re.search_word_alt p final_answer) eqn:E; simpl.
    + split; [discriminate|]. intros H. inversion H; subst. simpl in *. congruence.
    + rewrite IH. split.
      * intros H. constructor; [exact E | exact H].
      * intros H. now inversion H.
Qed.

Lemma risk_violations_nil (risks : list Risk.t) :
  Gate.risk_violations risks = []
  <-> Forall (fun r => Risk.severity r <> "high") risks.
Proof.
  unfold Gate.risk_violations.
  induction risks as [|r risks IH]; simpl.
  - split; [constructor | reflexivity].
  - destruct (String.eqb_spec (Risk.severity r) "high") as [Heq|Hne].
    + split; [discriminate|]. intros H. inversion H; subst. contradiction.
    + destruct (filter _ risks) as [|x xs] eqn:Ef.
      * split; [|reflexivity]. intros _.
        constructor; [exact Hne | now apply IH].
      * split; [discriminate|]. intros H. inversion H; subst.
        apply IH in H3. discriminate H3.
Qed.

(** A result of the gate passes exactly when none of the three unsafe
    patterns is found in the final answer and no risk has the severity
    [high], spelled so. *)
Theorem safety_passed_characterisation
    (d : DecisionObject.t) (r : Gate.SafetyResult) :
  Gate.safety_check d = Ok r ->
  (Gate.passed r = true <->
   Forall (fun pc => Re.search_word_alt (fst pc) (DecisionObject.final_answer d) = false)
     Gate.UNSAFE_PATTERNS
   /\ Forall (fun risk => Risk.severity risk <> "high") (DecisionObject.risks d)).
Proof.
  intros H. destruct (safety_check_result d r H) as (ws & _ & Hv & _ & _ & Hp).
  rewrite Hp, Hv, <- pattern_violations_nil, <- risk_violations_nil.
  rewrite Nat.eqb_eq, length_zero_iff_nil. split.
  - intros Happ. now apply app_eq_nil in Happ.
  - intros [-> ->]. reflexivity.
Qed.

Lemma safety_passed_characterisation_witness :
  Gate.passed doubtful_result = true <->
  Forall (fun pc => Re.search_word_alt (fst pc) "Four." = false) Gate.UNSAFE_PATTERNS
  /\ Forall (fun risk => Risk.severity risk <> "high") [].
Proof.
  exact (safety_passed_characterisation doubtful_decision doubtful_result eq_refl).
Defined.

Lemma disagreement_warnings_only (evals : list JudgeEvaluation.t)
    (ws : list Gate.warning) :
  Gate.disagreement_warnings evals = Ok ws ->
  ws = []
  \/ exists e0 e1 rest a t0 b t1,
       evals = e0 :: e1 :: rest
       /\ JudgeEvaluation.rankings e0 = a :: t0
       /\ JudgeEvaluation.rankings e1 = b :: t1
       /\ a <> b
       /\ ws = [Gate.JudgeDisagreement a b].
Proof.
  unfold Gate.disagreement_warnings.
  destruct evals as [|e0 [|e1 rest]]; try (intros H; inversion H; now left).
  destruct (JudgeEvaluation.rankings e0) as [|a t0] eqn:E0; simpl; [discriminate|].
  destruct (JudgeEvaluation.rankings e1) as [|b t1] eqn:E1; simpl; [discriminate|].
  destruct (String.eqb_spec a b) as [Heq|Hne]; simpl; intros H; inversion H;
    [now left|right].
  exists e0, e1, rest, a, t0, b, t1. auto.
Qed.

(** The gate warns of low confidence exactly when the confidence is below
    one half: a confidence of exactly one half draws no warning. *)
Theorem low_confidence_warning_iff
    (d : DecisionObject.t) (r : Gate.SafetyResult) :
  Gate.safety_check d = Ok r ->
  ((exists v t, In (Gate.LowConfidence v t) (Gate.warnings r))
   <-> (DecisionObject.confidence d < 5 # 10)%Q)
  /\ (forall v t, In (Gate.LowConfidence v t) (Gate.warnings r) ->
                  v = DecisionObject.confidence d /\ t = 5 # 10).
Proof.
  intros H. destruct (safety_check_result d r H) as (ws & Hw & _ & -> & _ & _).
  assert (Hno : forall v t, ~ In (Gate.LowConfidence v t) ws).
  { intros v t Hin. destruct (disagreement_warnings_only _ _ Hw)
      as [-> | (e0 & e1 & rest & a & t0 & b & t1 & _ & _ & _ & _ & ->)];
      simpl in Hin; [contradiction|]. destruct Hin as [Hin|[]]. discriminate Hin. }
  unfold Gate.confidence_warnings, Qlt_bool, Gate.MIN_CONFIDENCE.
  destruct (Qle_bool (5 # 10) (DecisionObject.confidence d)) eqn:E; simpl.
  - apply Qle_bool_iff in E. split.
    + split.
      * intros (v & t & Hin). exfalso. exact (Hno v t Hin).
      * intros Hlt. exfalso. apply (Qlt_not_le _ _ Hlt). exact E.
    + intros v t Hin. exfalso. exact (Hno v t Hin).
  - assert (Hlt : (DecisionObject.confidence d < 5 # 10)%Q).
    { apply Qnot_le_lt. intros Hle. apply Qle_bool_iff in Hle. congruence. }
    split.
    + split; [intros _; exact Hlt|]. intros _. eexists. eexists. left. reflexivity.
    + intros v t [Hin|Hin]; [now inversion Hin | exfalso; exact (Hno v t Hin)].
Qed.

Lemma low_confidence_warning_iff_witness :
  (exists v t, In (Gate.LowConfidence v t) (Gate.warnings doubtful_result))
  <-> (3 # 10 < 5 # 10)%Q.
Proof.
  exact (proj1 (low_confidence_warning_iff doubtful_decision doubtful_result eq_refl)).
Defined.

(** The gate warns of a disagreement exactly when there are at least two
    evaluations and the first entries of the rankings of the first two
    differ; it looks at no other evaluation and at no other entry. *)
Theorem judge_disagreement_warning_iff
    (d : DecisionObject.t) (r : Gate.SafetyResult) (a b : string) :
  Gate.safety_check d = Ok r ->
  (In (Gate.JudgeDisagreement a b) (Gate.warnings r)
   <-> a <> b
       /\ exists e0 e1 rest t0 t1,
            DecisionObject.judge_evaluations d = e0 :: e1 :: rest
            /\ JudgeEvaluation.rankings e0 = a :: t0
            /\ JudgeEvaluation.rankings e1 = b :: t1).
Proof.
  intros H. destruct (safety_check_result d r H) as (ws & Hw & _ & -> & _ & _).
  assert (Hc : ~ In (Gate.JudgeDisagreement a b)
                 (Gate.confidence_warnings (DecisionObject.confidence d))).
  { unfold Gate.confidence_warnings.
    destruct (Qlt_bool _ _); simpl; [intros [Hin|[]]; discriminate Hin | auto]. }
  rewrite in_app_iff. split.
  - intros [Hin|Hin]; [contradiction|].
    destruct (disagreement_warnings_only _ _ Hw)
      as [-> | (e0 & e1 & rest & a' & t0 & b' & t1 & He & H0 & H1 & Hne & ->)];
      simpl in Hin; [contradiction|].
    destruct Hin as [Hin|[]]. inversion Hin; subst.
    split; [exact Hne|]. exists e0, e1, rest, t0, t1. auto.
  - intros (Hne & e0 & e1 & rest & t0 & t1 & He & H0 & H1). right.
    unfold Gate.disagreement_warnings in Hw. rewrite He, H0, H1 in Hw.
    simpl in Hw. destruct (String.eqb_spec a b) as [Heq|_]; [contradiction|].
    simpl in Hw. inversion Hw. now left.
Qed.

Lemma judge_disagreement_warning_iff_witness :
  In (Gate.JudgeDisagreement "agent_0" "agent_1") (Gate.warnings doubtful_result)
  <-> "agent_0" <> "agent_1"
      /\ exists e0 e1 rest t0 t1,
           DecisionObject.judge_evaluations doubtful_decision = e0 :: e1 :: rest
           /\ JudgeEvaluation.rankings e0 = "agent_0" :: t0
           /\ JudgeEvaluation.rankings e1 = "agent_1" :: t1.
Proof.
  exact (judge_disagreement_warning_iff doubtful_decision doubtful_result
           "agent_0" "agent_1" eq_refl).
Defined.

(** ** The audit store, continued *)

Lemma get_decision_app (db : AuditLogger.table) (suffix : AuditLogger.table)
    (id : string) (r : AuditLogger.row) :
  AuditLogger.get_decision db id = Some r ->
  AuditLogger.get_decision (db ++ suffix)%list id = Some r.
Proof.
  unfold AuditLogger.get_decision.
  induction db as [|x db IH]; simpl; [discriminate|].
  destruct (String.eqb (AuditLogger.audit_id x) id); [auto | exact IH].
Qed.

Lemma has_key_in (db : AuditLogger.table) (id : string) :
  AuditLogger.has_key db id = true <-> In id (map AuditLogger.audit_id db).
Proof.
  unfold AuditLogger.has_key.
  induction db as [|x db IH]; simpl.
  - split; [discriminate | intros []].
  - destruct (String.eqb_spec (AuditLogger.audit_id x) id) as [Heq|Hne]; simpl.
    + split; auto.
    + rewrite IH. split; [auto | intros [H|H]; [contradiction | exact H]].
Qed.

(** A decision that has been logged is found again under its identifier,
    with the question, the answer, the confidence and the verdict of the
    gate that were logged. *)
Theorem log_then_get
    (db db' : AuditLogger.table) (d : DecisionObject.t)
    (s : Gate.SafetyResult) (id : string) :
  AuditLogger.log_decision db d s = (db', Ok id) ->
  id = DecisionObject.audit_id d
  /\ exists row,
       AuditLogger.get_decision db' id = Some row
       /\ AuditLogger.question row = DecisionObject.question d
       /\ AuditLogger.final_answer row = DecisionObject.final_answer d
       /\ AuditLogger.confidence row = DecisionObject.confidence d
       /\ AuditLogger.agent_responses row = DecisionObject.agent_responses d
       /\ AuditLogger.judge_evaluations row = DecisionObject.judge_evaluations d
       /\ AuditLogger.safety_passed row = Gate.passed s
       /\ AuditLogger.safety_violations row = Gate.violations s
       /\ AuditLogger.safety_warnings row = Gate.warnings s.
Proof.
  unfold AuditLogger.log_decision.
  destruct (AuditLogger.has_key db (DecisionObject.audit_id d)) eqn:Hk;
    intros H; inversion H; subst; clear H.
  split; [reflexivity|]. eexists. split.
  - apply find_no_key; [exact Hk | reflexivity].
  - repeat split.
Qed.

Lemma log_then_get_witness :
  exists row,
    AuditLogger.get_decision
      (fst (AuditLogger.log_decision [] doubtful_decision doubtful_result))
      "0b1e6f0e-5c3a-4f6e-9d55-7a1c2f3e4d5b" = Some row
    /\ AuditLogger.final_answer row = "Four."
    /\ AuditLogger.safety_passed row = true.
Proof.
  destruct (log_then_get [] _ doubtful_decision doubtful_result
              "0b1e6f0e-5c3a-4f6e-9d55-7a1c2f3e4d5b" eq_refl)
    as (_ & row & Hg & _ & Ha & _ & _ & _ & Hp & _).
  exists row. split; [exact Hg|]. split; [exact Ha | exact Hp].
Defined.



Lemma pos_of_nat_succ_Z (n : nat) : Z.pos (Pos.of_nat (S n)) = Z.of_nat (S n).
Proof. rewrite <- Pos.of_nat_succ, Zpos_P_of_succ_nat. lia. Qed.

Lemma filter_split_length {A : Type} (f : A -> bool) (l : list A) :
  (List.length (filter f l) + List.length (filter (fun x => negb (f x)) l)
   = List.length l)%nat.
Proof.
  induction l as [|x l IH]; simpl; [reflexivity|].
  destruct (f x); simpl; lia.
Qed.

(** Over a table with rows, [get_statistics] counts every row as passed
    or as rejected, gives the pass rate as their quotient, between 0 and
    1, and gives the mean processing time under the key
    [avg_processing_time_seconds], not under [avg_processing_time], the
    key it uses for the empty table. *)
Theorem get_statistics_counts (db : AuditLogger.table) :
  db <> [] ->
  dict_get "total_decisions" (AuditLogger.get_statistics db)
  = Some (PInt (Z.of_nat (List.length db)))
  /\ (exists p r,
         dict_get "passed_decisions" (AuditLogger.get_statistics db)
         = Some (PInt (Z.of_nat p))
         /\ dict_get "rejected_decisions" (AuditLogger.get_statistics db)
            = Some (PInt (Z.of_nat r))
         /\ (p + r = List.length db)%nat
         /\ exists q,
              dict_get "pass_rate" (AuditLogger.get_statistics db)
              = Some (PFloat (Fin q))
              /\ (q == inject_Z (Z.of_nat p) / inject_Z (Z.of_nat (List.length db)))%Q
              /\ (0 <= q)%Q /\ (q <= 1)%Q)
  /\ dict_get "avg_processing_time" (AuditLogger.get_statistics db) = None
  /\ exists t,
       dict_get "avg_processing_time_seconds" (AuditLogger.get_statistics db)
       = Some (PFloat (Fin t)).
Proof.
  intros Hne. unfold AuditLogger.get_statistics.
  destruct db as [|x db]; [contradiction|].
  set (l := x :: db).
  assert (Hlen : List.length l = S (List.length db)) by reflexivity.
  rewrite Hlen. cbn [Nat.eqb Nat.ltb Nat.leb].
  split; [reflexivity|]. split.
  - exists (List.length (filter (fun r => AuditLogger.safety_passed r) l)),
           (List.length (filter (fun r => negb (AuditLogger.safety_passed r)) l)).
    split; [reflexivity|]. split; [reflexivity|].
    pose proof (filter_split_length (fun r => AuditLogger.safety_passed r) l) as Hs.
    rewrite Hlen in Hs. split; [exact Hs|].
    eexists. split; [reflexivity|].
    set (p := List.length (filter (fun r => AuditLogger.safety_passed r) l)) in *.
    assert (Hp : (p <= S (List.length db))%nat) by lia.
    remember (Pos.of_nat (S (List.length db))) as P eqn:EP.
    assert (HP : Z.of_nat (S (List.length db)) = Z.pos P)
      by (subst P; symmetry; apply pos_of_nat_succ_Z).
    rewrite HP. split; [|split].
    + rewrite Qred_correct. unfold Qeq, Qdiv, Qmult, Qinv, inject_Z. simpl. lia.
    + rewrite Qred_correct. unfold Qle. simpl. lia.
    + rewrite Qred_correct. unfold Qle. simpl. lia.
  - split; [reflexivity|].
    cbn [dict_get String.eqb Ascii.eqb Bool.eqb].
    unfold AuditLogger.rounded_or_zero.
    destruct (AuditLogger.AVG (flat_map _ _)) as [q|]; [destruct (Qeq_bool q 0)|];
      eexists; reflexivity.
Qed.

Lemma get_statistics_counts_witness :
  dict_get "total_decisions" (AuditLogger.get_statistics calm_table) = Some (PInt 1).
Proof.
  apply (get_statistics_counts calm_table). discriminate.
Defined.

(** ** Whole runs, continued *)

Lemma failed_run_writes_nothing_witness :
  fst (Main.deliberate default_config overconfident_world calm_table question_1)
  = calm_table.
Proof.
  destruct (Main.deliberate default_config overconfident_world calm_table question_1)
    as [db' o] eqn:E.
  assert (Ho : exists code d, o = Main.HTTPError code d).
  { vm_compute in E. inversion E. eexists. eexists. reflexivity. }
  destruct Ho as (code & d & ->).
  exact (failed_run_writes_nothing _ _ _ _ _ _ _ E).
Defined.

Lemma safety_check_exn (d : DecisionObject.t) (e : exn) :
  Gate.safety_check d = Raise e -> e = IndexError.
Proof.
  unfold Gate.safety_check, Gate.disagreement_warnings.
  destruct (DecisionObject.judge_evaluations d) as [|e0 [|e1 rest]]; simpl;
    try discriminate.
  destruct (Gate.first (JudgeEvaluation.rankings e0)) as [a|x] eqn:E0; simpl.
  - destruct (Gate.first (JudgeEvaluation.rankings e1)) as [b|y] eqn:E1; simpl.
    + destruct (negb (a =? b)%string); discriminate.
    + intros H; inversion H; subst. now destruct (first_raises _ _ E1).
  - intros H; inversion H; subst. now destruct (first_raises _ _ E0).
Qed.

Lemma stage2_exn (cfg : Config) (w : World) (agents : list AgentResponse.t)
    (e : exn) :
  Evaluator.stage2_judge_evaluation cfg w agents = Raise e -> e = IndexError.
Proof.
  unfold Evaluator.stage2_judge_evaluation, Evaluator.judge_outputs.
  destruct (mapM _ _) as [outputs|err] eqn:Em; simpl; [discriminate|].
  intros H; inversion H; subst.
  destruct (mapM_raise _ _ _ Em) as (i & _ & Hq).
  exact (query_model_json_exn _ _ _ Hq).
Qed.

(** The ways in which a run ends. *)
Lemma deliberate_cases
    (cfg : Config) (w : World) (db db' : AuditLogger.table)
    (question : string) (o : Main.outcome) :
  Main.deliberate cfg w db question = (db', o) ->
  (db' = db
   /\ exists e,
        o = handled e
        /\ ((Main.too_short question = true
             /\ e = HTTPException 400 "Question must be at least 10 characters long")
            \/ (Main.too_short question = false
                /\ ((Evaluator.stage2_judge_evaluation
                       cfg w (Generator.stage1_generate_answers cfg w) = Raise e
                     /\ e = IndexError)
                    \/ exists evals,
                         Evaluator.stage2_judge_evaluation
                           cfg w (Generator.stage1_generate_answers cfg w) = Ok evals
                         /\ (Synthesizer.stage3_synthesize_decision
                               cfg w question (Generator.stage1_generate_answers cfg w)
                               evals (start_time w) = Raise e
                             \/ exists d,
                                  Synthesizer.stage3_synthesize_decision
                                    cfg w question
                                    (Generator.stage1_generate_answers cfg w)
                                    evals (start_time w) = Ok d
                                  /\ ((Gate.safety_check d = Raise e /\ e = IndexError)
                                      \/ (AuditLogger.has_key db (uuid4 w) = true
                                          /\ e = IntegrityError)))))))
  \/ (exists evals d s row r,
        Main.too_short question = false
        /\ Evaluator.stage2_judge_evaluation
             cfg w (Generator.stage1_generate_answers cfg w) = Ok evals
        /\ Synthesizer.stage3_synthesize_decision
             cfg w question (Generator.stage1_generate_answers cfg w)
             evals (start_time w) = Ok d
        /\ Gate.safety_check d = Ok s
        /\ AuditLogger.has_key db (uuid4 w) = false
        /\ AuditLogger.log_decision db d s = (db', Ok (uuid4 w))
        /\ db' = (db ++ [row])%list
        /\ AuditLogger.audit_id row = uuid4 w
        /\ o = Main.Response r
        /\ Main.audit_id r = uuid4 w
        /\ Main.processing_time_seconds r
           = Some (round (end_time w - start_time w)%Q 2)
        /\ ((Gate.passed s = true
             /\ Main.status r = "approved"
             /\ Main.reason r = None
             /\ Main.decision_payload r
                = Some {| Main.decision := d;
                          Main.safety_warnings :=
                            match Gate.warnings s with
                            | [] => None
                            | ws => Some ws
                            end |})
            \/ (Gate.passed s = false
                /\ Main.status r = "rejected"
                /\ Main.decision_payload r = None
                /\ Main.reason r
                   = Some ("Safety gate failed: "
                           ++ str_of_nat (List.length (Gate.violations s))
                           ++ " violation(s) detected")))).
Proof.
  unfold Main.deliberate, Main.deliberate_try.
  destruct (Main.too_short question) eqn:Ets.
  { intros H; inversion H; subst. left. split; [reflexivity|].
    exists (HTTPException 400 "Question must be at least 10 characters long").
    split; [reflexivity|]. left. auto. }
  destruct (Evaluator.stage2_judge_evaluation _ _ _) as [evals|e] eqn:E2.
  2:{ intros H. left.
      assert (Hd : db' = db /\ o = handled e).
      { unfold handled. destruct (is_ValueError e); inversion H; auto. }
      destruct Hd as [-> ->]. split; [reflexivity|].
      exists e. split; [reflexivity|]. right. split; [reflexivity|]. left.
      split; [reflexivity | exact (stage2_exn _ _ _ _ E2)]. }
  destruct (Synthesizer.stage3_synthesize_decision _ _ _ _ _ _) as [d|e] eqn:E3.
  2:{ intros H. left.
      assert (Hd : db' = db /\ o = handled e).
      { unfold handled. destruct (is_ValueError e); inversion H; auto. }
      destruct Hd as [-> ->]. split; [reflexivity|].
      exists e. split; [reflexivity|]. right. split; [reflexivity|]. right.
      exists evals. split; [reflexivity|]. left. exact E3. }
  pose proof (stage3_audit_id _ _ _ _ _ _ _ E3) as Hid.
  destruct (Gate.safety_check d) as [s|e] eqn:E4.
  2:{ intros H. left.
      assert (Hd : db' = db /\ o = handled e).
      { unfold handled. destruct (is_ValueError e); inversion H; auto. }
      destruct Hd as [-> ->]. split; [reflexivity|].
      exists e. split; [reflexivity|]. right. split; [reflexivity|]. right.
      exists evals. split; [reflexivity|]. right. exists d.
      split; [exact E3|]. left.
      split; [exact E4 | exact (safety_check_exn _ _ E4)]. }
  destruct (AuditLogger.log_decision db d s) as [db1 res] eqn:EL.
  pose proof EL as EL'. apply log_decision_spec in EL'.
  rewrite Hid in EL'.
  destruct EL' as [(Hk & -> & ->) | (Hk & -> & row & -> & Hrow & Hp)].
  - intros H. simpl in H. inversion H; subst. left. split; [reflexivity|].
    exists IntegrityError. split; [reflexivity|]. right. split; [reflexivity|].
    right. exists evals. split; [reflexivity|]. right. exists d.
    split; [exact E3|]. right. auto.
  - intros H. right.
    destruct (Gate.passed s) eqn:Ep; simpl in H; inversion H; subst; clear H;
      exists evals, d, s, row; eexists;
      (split; [reflexivity|]); (split; [reflexivity|]); (split; [exact E3|]);
      (split; [exact E4|]); (split; [exact Hk|]);
      (split; [exact EL|]);
      (split; [reflexivity|]); (split; [exact Hrow|]);
      (split; [reflexivity|]); simpl; (split; [exact Hid|]);
      (split; [reflexivity|]); [left | right]; repeat split;
      try reflexivity; exact Ep.
Qed.



(** An out-of-range confidence is a bad request. *)
Lemma overconfident_reply_is_bad_request :
  Main.deliberate default_config overconfident_world [] question_1
  = ([], Main.HTTPError 400 (Main.Str ValidationError)).
Proof. reflexivity. Qed.

(** A run whose drawn identifier is already a key of the table does not
    end with a response: it ends with an error and leaves the table as it
    was. *)
Theorem duplicate_identifier_fails
    (cfg : Config) (w : World) (db : AuditLogger.table) (question : string) :
  AuditLogger.has_key db (uuid4 w) = true ->
  exists code dt,
    Main.deliberate cfg w db question = (db, Main.HTTPError code dt).
Proof.
  intros Hk.
  destruct (Main.deliberate cfg w db question) as [db' o] eqn:E.
  destruct (deliberate_cases _ _ _ _ _ _ E)
    as [(-> & e & -> & _) | (evals & d & s & row & r & H)].
  - unfold handled. destruct (is_ValueError e); eexists; eexists; reflexivity.
  - destruct H as (_ & _ & _ & _ & Hk' & _). congruence.
Qed.

Lemma duplicate_identifier_fails_witness :
  exists code dt,
    Main.deliberate default_config (calm_world "Four.") calm_table question_1
    = (calm_table, Main.HTTPError code dt).
Proof.
  apply (duplicate_identifier_fails default_config (calm_world "Four.") calm_table).
  reflexivity.
Defined.

(** A response tells what was logged.  Its audit identifier retrieves the
    row of the run, which holds the final answer of the decision.  An
    approved response carries the decision, and the warnings of the gate
    when there are some; a rejected response carries no decision and the
    number of violations, which is not zero. *)
Theorem response_shape
    (cfg : Config) (w : World) (db db' : AuditLogger.table)
    (question : string) (r : Main.CouncilResponse) :
  Main.deliberate cfg w db question = (db', Main.Response r) ->
  exists d s row,
    Gate.safety_check d = Ok s
    /\ Main.get_audit db' (Main.audit_id r)
       = {| Main.found := true; Main.data := Some row |}
    /\ AuditLogger.final_answer row = DecisionObject.final_answer d
    /\ AuditLogger.safety_passed row = Gate.passed s
    /\ ((Main.status r = "approved"
         /\ Gate.passed s = true
         /\ Main.reason r = None
         /\ Main.decision_payload r
            = Some {| Main.decision := d;
                      Main.safety_warnings :=
                        match Gate.warnings s with
                        | [] => None
                        | ws => Some ws
                        end |})
        \/ (Main.status r = "rejected"
            /\ Gate.passed s = false
            /\ Main.decision_payload r = None
            /\ Gate.violations s <> []
            /\ Main.reason r
               = Some ("Safety gate failed: "
                       ++ str_of_nat (List.length (Gate.violations s))
                       ++ " violation(s) detected"))).
Proof.
  intros H. apply deliberate_cases in H.
  destruct H as [(_ & e & Ho & _) | (evals & d & s & row & r' & H)].
  { unfold handled in Ho. destruct (is_ValueError e); discriminate Ho. }
  destruct H as (_ & _ & _ & E4 & Hk & EL & -> & Hrow & Ho & Hid & _ & Hshape).
  inversion Ho; subst r'; clear Ho.
  exists d, s, row. split; [exact E4|].
  assert (Hfields : AuditLogger.final_answer row = DecisionObject.final_answer d
                    /\ AuditLogger.safety_passed row = Gate.passed s).
  { unfold AuditLogger.log_decision in EL.
    destruct (AuditLogger.has_key db (DecisionObject.audit_id d));
      inversion EL as [[Hdb Hres]].
    apply app_inj_tail in Hdb. destruct Hdb as [_ <-]. split; reflexivity. }
  destruct Hfields as [Hfa Hsp].
  split.
  { unfold Main.get_audit. rewrite Hid.
    now rewrite (find_no_key db (uuid4 w) row Hk Hrow). }
  split; [exact Hfa|]. split; [exact Hsp|].
  destruct Hshape as [(Hp & Hs & Hr & Hd) | (Hp & Hs & Hd & Hr)];
    [left; auto | right].
  repeat split; auto.
  intros Hnil. rewrite (passed_spec d s E4), Hnil in Hp. discriminate Hp.
Qed.

Lemma response_shape_witness :
  exists d s row,
    Gate.safety_check d = Ok s
    /\ Main.get_audit calm_table "0b1e6f0e-5c3a-4f6e-9d55-7a1c2f3e4d5b"
       = {| Main.found := true; Main.data := Some row |}
    /\ AuditLogger.final_answer row = DecisionObject.final_answer d
    /\ AuditLogger.safety_passed row = Gate.passed s.
Proof.
  destruct (Main.deliberate default_config (calm_world "Four.") [] question_1)
    as [db' o] eqn:E.
  assert (Hdb : db' = calm_table) by (unfold calm_table; now rewrite E).
  assert (Ho : exists r, o = Main.Response r
                         /\ Main.audit_id r = "0b1e6f0e-5c3a-4f6e-9d55-7a1c2f3e4d5b").
  { vm_compute in E. inversion E. eexists. split; reflexivity. }
  destruct Ho as (r & -> & Hid).
  destruct (response_shape _ _ _ _ _ _ E) as (d & s & row & H4 & Hg & Hf & Hp & _).
  exists d, s, row. rewrite <- Hdb, <- Hid. auto.
Defined.

Lemma NoDup_snoc {A : Type} (l : list A) (x : A) :
  NoDup l -> ~ In x l -> NoDup (l ++ [x]).
Proof.
  induction l as [|y l IH]; simpl; intros Hnd Hx.
  - constructor; [intros [] | constructor].
  - inversion Hnd as [|? ? Hy Hl]; subst. constructor.
    + rewrite in_app_iff. intros [Hin|[Heq|[]]]; [contradiction | subst; auto].
    + apply IH; auto.
Qed.

(** No run alters or removes a row of the table: after any run, whatever
    its outcome, the table is the table before it followed by at most one
    row, and every identifier retrieves what it retrieved before. *)
Theorem deliberate_append_only
    (cfg : Config) (w : World) (db : AuditLogger.table) (question : string) :
  exists suffix,
    fst (Main.deliberate cfg w db question) = (db ++ suffix)%list
    /\ (List.length suffix <= 1)%nat
    /\ forall id row,
         AuditLogger.get_decision db id = Some row ->
         AuditLogger.get_decision (fst (Main.deliberate cfg w db question)) id
         = Some row.
Proof.
  destruct (Main.deliberate cfg w db question) as [db' o] eqn:E. simpl.
  destruct (deliberate_cases _ _ _ _ _ _ E)
    as [(-> & _) | (evals & d & s & row & r & H)].
  - exists []. rewrite app_nil_r. auto.
  - destruct H as (_ & _ & _ & _ & _ & _ & -> & _).
    exists [row]. split; [reflexivity|]. split; [simpl; lia|].
    intros id row0. apply get_decision_app.
Qed.

(** Every run keeps the identifiers of the table pairwise distinct. *)
Theorem deliberate_keeps_keys_unique
    (cfg : Config) (w : World) (db : AuditLogger.table) (question : string) :
  NoDup (map AuditLogger.audit_id db) ->
  NoDup (map AuditLogger.audit_id (fst (Main.deliberate cfg w db question))).
Proof.
  intros Hnd.
  destruct (Main.deliberate cfg w db question) as [db' o] eqn:E. simpl.
  destruct (deliberate_cases _ _ _ _ _ _ E)
    as [(-> & _) | (evals & d & s & row & r & H)]; [exact Hnd|].
  destruct H as (_ & _ & _ & _ & Hk & _ & -> & Hrow & _).
  rewrite map_app. simpl. apply NoDup_snoc; [exact Hnd|].
  rewrite Hrow. intros Hin. apply has_key_in in Hin. congruence.
Qed.

Lemma deliberate_keeps_keys_unique_witness :
  NoDup (map AuditLogger.audit_id calm_table).
Proof.
  apply (deliberate_keeps_keys_unique default_config (calm_world "Four.") []
           question_1).
  constructor.
Defined.
